(** * InsightBridge 4.5 admission gateway: shallow embedding and properties

    The development follows the Python sources under [app/]:
    [models.py], [config.py], [core/rate_limiter.py], [core/jwt_validator.py],
    [core/replay_cache.py], [core/score_provider.py], [core/decision_engine.py]
    and the request handler [validate_token] of [main.py].

    Modelling conventions.
    - Python values that travel through the pipeline untyped (the claims of a
      decoded JWT payload) are values of [PyVal].  JSON numbers are integers,
      as in the data model of the gateway ([exp], [nbf], [iat] are integer
      seconds); JSON arrays and objects are kept only up to their emptiness,
      which is all the pipeline can observe of them (truthiness, and the
      [TypeError] they raise when hashed or used in arithmetic).
    - Python [float] arithmetic of the token bucket is idealised as exact
      rational arithmetic on [Q].
    - Code that mutates an object and may raise is written in a state and
      exception monad [M S]: the state reached when an exception is raised is
      kept, as in Python.
    - Collaborators outside the repository (PyJWT's [jwt.decode], the HTTP
      client, SHA-256, the score repository behind its interface) are
      parameters. *)

From Stdlib Require Import ZArith QArith Qminmax Lqa Lia.
From stdpp Require Import base decidable countable gmap sets list strings.

Local Open Scope Z_scope.

(** ** Python values *)

Inductive PyVal : Type :=
| VNone
| VBool (b : bool)
| VInt (n : Z)
| VStr (s : string)
| VSeq (nonempty : bool).

#[global] Instance PyVal_eq_dec : EqDecision PyVal.
Proof. solve_decision. Defined.

(** [bool(v)] *)
Definition truthy (v : PyVal) : bool :=
  match v with
  | VNone => false
  | VBool b => b
  | VInt n => negb (n =? 0)
  | VStr s => negb (String.eqb s "")
  | VSeq nonempty => nonempty
  end.

(** Hashable values up to Python equality: [True == 1] and [False == 0] are
    the same set element or dict key as the integers. *)
Inductive PyKey : Type :=
| KNone
| KInt (n : Z)
| KStr (s : string).

#[global] Instance PyKey_eq_dec : EqDecision PyKey.
Proof. solve_decision. Defined.

Definition PyKey_to_sum (k : PyKey) : unit + (Z + string) :=
  match k with
  | KNone => inl tt
  | KInt n => inr (inl n)
  | KStr s => inr (inr s)
  end.

Definition PyKey_of_sum (x : unit + (Z + string)) : PyKey :=
  match x with
  | inl _ => KNone
  | inr (inl n) => KInt n
  | inr (inr s) => KStr s
  end.

#[global] Instance PyKey_countable : Countable PyKey.
Proof.
  apply (inj_countable' PyKey_to_sum PyKey_of_sum).
  intros []; reflexivity.
Defined.

Inductive Exn : Type :=
| TypeError
| AttributeError
| OtherException.

Inductive Result (A : Type) : Type :=
| Ok (a : A)
| Raise (e : Exn).
Arguments Ok {A} a.
Arguments Raise {A} e.

(** [hash(v)]: lists and dicts are unhashable. *)
Definition py_hash (v : PyVal) : Result PyKey :=
  match v with
  | VNone => Ok KNone
  | VBool b => Ok (KInt (if b then 1 else 0))
  | VInt n => Ok (KInt n)
  | VStr s => Ok (KStr s)
  | VSeq _ => Raise TypeError
  end.

(** [v + n] and [v - n] for an [int] [n]. *)
Definition py_add_int (v : PyVal) (n : Z) : Result Z :=
  match v with
  | VBool b => Ok ((if b then 1 else 0) + n)
  | VInt m => Ok (m + n)
  | VNone | VStr _ | VSeq _ => Raise TypeError
  end.

Definition py_sub_int (v : PyVal) (n : Z) : Result Z :=
  match v with
  | VBool b => Ok ((if b then 1 else 0) - n)
  | VInt m => Ok (m - n)
  | VNone | VStr _ | VSeq _ => Raise TypeError
  end.

(** [d.get(k)] on a decoded payload *)
Definition dict_get (d : gmap string PyVal) (k : string) : PyVal :=
  default VNone (d !! k).

(** [int(x)] for a float [x]: truncation towards zero *)
Definition py_int (x : Q) : Z := Z.quot (Qnum x) (Z.pos (Qden x)).

Definition Qltb (x y : Q) : bool := negb (Qle_bool y x).

(** ** State and exception monad *)

Definition M (S A : Type) : Type := S -> Result A * S.

Definition ret {S A} (a : A) : M S A := fun s => (Ok a, s).

Definition bind {S A B} (m : M S A) (k : A -> M S B) : M S B :=
  fun s =>
    match m s with
    | (Ok a, s') => k a s'
    | (Raise e, s') => (Raise e, s')
    end.

Definition raise {S A} (e : Exn) : M S A := fun s => (Raise e, s).

(** [try: m  except Exception as e: h e] *)
Definition try_except {S A} (m : M S A) (h : Exn -> M S A) : M S A :=
  fun s =>
    match m s with
    | (Ok a, s') => (Ok a, s')
    | (Raise e, s') => h e s'
    end.

Definition modify {S} (f : S -> S) : M S unit := fun s => (Ok tt, f s).

Definition gets {S A} (f : S -> A) : M S A := fun s => (Ok (f s), s).

(** A computation that does not touch the state *)
Definition lift_result {S A} (r : Result A) : M S A := fun s => (r, s).

(** Run a computation of a component on the component's slot of the state *)
Definition zoom {S T A} (get : S -> T) (set : T -> S -> S) (m : M T A) : M S A :=
  fun s => let '(r, t') := m (get s) in (r, set t' s).

Notation "'do' x <- m ;; k" := (bind m (fun x => k))
  (at level 10, x name, m at level 99, k at level 200).
Notation "'do' ' pat <- m ;; k" := (bind m (fun x => match x with pat => k end))
  (at level 10, pat pattern, m at level 99, k at level 200).

(** ** models.py *)

Inductive Decision : Type := ALLOW | DENY | MONITOR.

Inductive DenyReason : Type :=
| EXPIRED_TOKEN
| NOT_YET_VALID
| REPLAY_DETECTED
| RATE_LIMIT_EXCEEDED
| INVALID_SIGNATURE
| LOW_SCORE
| MALFORMED_TOKEN
| INTERNAL_ERROR.

#[global] Instance Decision_eq_dec : EqDecision Decision.
Proof. solve_decision. Defined.

#[global] Instance DenyReason_eq_dec : EqDecision DenyReason.
Proof. solve_decision. Defined.

Record ValidateResponse : Type := {
  decision : Decision;
  reason : option DenyReason;
  request_id : string;
  timestamp : Q;
  score : option Z
}.

(** ** config.py: the settings the pipeline reads *)

Record Settings : Type := {
  jwt_clock_drift_seconds : Z;
  rate_limit_requests_per_minute : Z;
  rate_limit_burst_size : Z;
  score_provider_type : string;
  score_cache_ttl_seconds : Z;
  telemetry_emit_enabled : bool;
  replay_cache_purge_interval_seconds : Z;
  replay_cache_max_size : Z
}.

Definition default_settings : Settings := {|
  jwt_clock_drift_seconds := 30;
  rate_limit_requests_per_minute := 100;
  rate_limit_burst_size := 120;
  score_provider_type := "database";
  score_cache_ttl_seconds := 300;
  telemetry_emit_enabled := true;
  replay_cache_purge_interval_seconds := 300;
  replay_cache_max_size := 1000000
|}.

(** ** core/rate_limiter.py *)

Module RateLimiter.

Record t : Type := {
  max_tokens : Q;
  refill_rate : Q;
  state : gmap string (Q * Q)
}.

Definition init (requests_per_minute : Z) : t := {|
  max_tokens := 120;
  refill_rate := inject_Z requests_per_minute / 60;
  state := ∅
|}.

Definition set_state (st : gmap string (Q * Q)) (self : t) : t := {|
  max_tokens := max_tokens self;
  refill_rate := refill_rate self;
  state := st
|}.

(** [now] is the reading of [time.time()] taken by the call. *)
Definition is_allowed (now : Q) : M t bool :=
  try_except
    (do self <- gets (fun self => self) ;;
     let key := "global"%string in
     match state self !! key with
     | None =>
         do _ <- modify (set_state (<[key := ((max_tokens self - 1)%Q, now)]> (state self))) ;;
         ret true
     | Some (tokens, last_update) =>
         let elapsed := (now - last_update)%Q in
         let tokens := Qmin (max_tokens self) (tokens + elapsed * refill_rate self)%Q in
         if Qltb tokens 1 then
           do _ <- modify (set_state (<[key := (tokens, now)]> (state self))) ;;
           ret false
         else
           do _ <- modify (set_state (<[key := ((tokens - 1)%Q, now)]> (state self))) ;;
           ret true
     end)
    (fun _ => ret true).

End RateLimiter.

(** ** core/replay_cache.py *)

Module ReplayCache.

Record t : Type := {
  seen : gset PyKey;
  jti_timestamps : gmap PyKey Z
}.

Definition init : t := {| seen := ∅; jti_timestamps := ∅ |}.

(** [now] is the reading of [time.time()]. *)
Definition _cleanup_expired (now : Q) : M t unit :=
  modify (fun self =>
    let expired :=
      filter (fun kv => Qltb (inject_Z kv.2) now = true) (jti_timestamps self) in
    {| seen := seen self ∖ dom expired;
       jti_timestamps := jti_timestamps self ∖ expired |}).

Definition is_replayed (now : Q) (jti : PyVal) : M t bool :=
  if negb (truthy jti) then ret true
  else
    do n <- gets (fun self => size (seen self)) ;;
    do _ <- (if (n mod 100 =? 0)%nat then _cleanup_expired now else ret tt) ;;
    do k <- lift_result (py_hash jti) ;;
    gets (fun self => bool_decide (k ∈ seen self)).

Definition record (jti : PyVal) (exp : option Z) : M t unit :=
  if truthy jti then
    do k <- lift_result (py_hash jti) ;;
    do _ <- modify (fun self =>
              {| seen := {[k]} ∪ seen self;
                 jti_timestamps := jti_timestamps self |}) ;;
    match exp with
    | Some e =>
        if negb (e =? 0) then
          modify (fun self =>
            {| seen := seen self;
               jti_timestamps := <[k := e]> (jti_timestamps self) |})
        else ret tt
    | None => ret tt
    end
  else ret tt.

Definition size (self : t) : nat := size (seen self).

End ReplayCache.

(** ** core/jwt_validator.py *)

Module JWTValidator.

(** What [jwt.decode(token, public_key, algorithms=[algorithm], options=...)]
    does: it returns the payload, a JSON object, or raises. *)
Inductive DecodeOutcome : Type :=
| Decoded (payload : gmap string PyVal)
| ExpiredSignatureError
| InvalidSignatureError
| DecodeError
| OtherDecodeException.

Record t : Type := {
  jwt_decode : string -> DecodeOutcome;
  clock_drift : Z
}.

Definition error_dict (kind : string) : gmap string PyVal :=
  {[ "error"%string := VStr kind ]}.

Definition rbind {A B} (r : Result A) (k : A -> Result B) : Result B :=
  match r with
  | Ok a => k a
  | Raise e => Raise e
  end.

Notation "'check' x <- r ;; k" := (rbind r (fun x => k))
  (at level 10, x name, r at level 99, k at level 200).

(** [time_now] is the reading of [time.time()]. *)
Definition validate_token (self : t) (time_now : Q) (token : string)
  : Result (gmap string PyVal) :=
  if String.eqb token "" then Ok (error_dict "malformed")
  else
    match jwt_decode self token with
    | ExpiredSignatureError => Ok (error_dict "expired")
    | InvalidSignatureError => Ok (error_dict "invalid_signature")
    | DecodeError => Ok (error_dict "malformed")
    | OtherDecodeException => Ok (error_dict "malformed")
    | Decoded payload =>
        let now := py_int time_now in
        let exp := dict_get payload "exp" in
        if bool_decide (exp = VNone) then Ok (error_dict "malformed")
        else
          check bound <- py_add_int exp (clock_drift self) ;;
          if bound <? now then Ok (error_dict "expired")
          else
            let nbf := dict_get payload "nbf" in
            check immature <-
              (if bool_decide (nbf = VNone) then Ok false
               else
                 check start <- py_sub_int nbf (clock_drift self) ;;
                 Ok (now <? start)) ;;
            if immature then Ok (error_dict "not_yet_valid")
            else if bool_decide (payload !! "jti"%string = None)
                    || bool_decide (payload !! "sub"%string = None)
            then Ok (error_dict "malformed")
            else Ok payload
    end.

End JWTValidator.

(** ** persistence/repositories.py: the interface the score provider calls *)

Module Repositories.

Class ScoreRepository (R : Type) : Type := {
  get_score : PyVal -> M R (option Z);
  get_cached_score : PyVal -> M R (option Z);
  cache_score : PyVal -> Z -> Z -> M R unit
}.

Definition startswith (s prefix : string) : bool := String.prefix prefix s.

(** The stub repository of [repositories.py], which [main.py] repeats as
    [MockScoreRepository]; [user_id.startswith] raises [AttributeError] on
    a value that is not a string. *)
Definition mock_get_score (user_id : PyVal) : M unit (option Z) :=
  match user_id with
  | VStr s =>
      if startswith s "high" then ret (Some 95)
      else if startswith s "med" then ret (Some 50)
      else ret (Some 5)
  | _ => raise AttributeError
  end.

#[global] Instance MockScoreRepository : ScoreRepository unit := {|
  get_score := mock_get_score;
  get_cached_score := fun _ => ret None;
  cache_score := fun _ _ _ => ret tt
|}.

(** A repository that answers every lookup with one fixed record, as the
    unit tests do with [return_value]. *)
Record Fixed : Type := { fixed_record : option Z }.

#[global] Instance FixedScoreRepository : ScoreRepository Fixed := {|
  get_score := fun _ => gets fixed_record;
  get_cached_score := fun _ => ret None;
  cache_score := fun _ _ _ => ret tt
|}.

End Repositories.

(** ** core/score_provider.py *)

Module TrustedScoreProvider.

Section Provider.
Context {R : Type} `{Repositories.ScoreRepository R}.

(** The [httpx] request of [_get_from_api] up to [response.json()]:
    [Raise] for a timeout, a connection failure, an error status or a
    body that is not a JSON object; otherwise the member ["score"] of the
    body, if it has one. *)
Variable api_get : PyVal -> Result (option Z).

Record t : Type := {
  settings : option Settings;
  provider_type : string
}.

Definition init (settings : option Settings) : t := {|
  settings := settings;
  provider_type :=
    match settings with
    | Some s => score_provider_type s
    | None => "database"%string
    end
|}.

Definition _get_from_database (self : t) (user_id : PyVal) : M R Z :=
  do score <- Repositories.get_score user_id ;;
  ret (match score with Some s => s | None => 0 end).

Definition _get_from_redis (self : t) (user_id : PyVal) : M R Z :=
  do cached_score <- Repositories.get_cached_score user_id ;;
  match cached_score with
  | Some c => ret c
  | None =>
      do score <- Repositories.get_score user_id ;;
      match score with
      | Some s =>
          let ttl :=
            match settings self with
            | Some st => score_cache_ttl_seconds st
            | None => 300
            end in
          do _ <- Repositories.cache_score user_id s ttl ;;
          ret s
      | None => ret 0
      end
  end.

Definition _get_from_api (self : t) (user_id : PyVal) : M R Z :=
  try_except
    (match settings self with
     | None => raise AttributeError
     | Some _ =>
         do data <- lift_result (api_get user_id) ;;
         ret (match data with Some s => s | None => 0 end)
     end)
    (fun _ => ret 0).

Definition get_score (self : t) (user_id : PyVal) : M R Z :=
  try_except
    (if String.eqb (provider_type self) "database" then
       _get_from_database self user_id
     else if String.eqb (provider_type self) "redis" then
       _get_from_redis self user_id
     else if String.eqb (provider_type self) "external_api" then
       _get_from_api self user_id
     else ret 0)
    (fun _ => ret 0).

(** [hashlib.sha256(user_id.encode()).hexdigest()] *)
Variable sha256_hexdigest : string -> string.

Definition hash_user_id (user_id : PyVal) : Result string :=
  match user_id with
  | VStr s => Ok (sha256_hexdigest s)
  | _ => Raise AttributeError
  end.

End Provider.

End TrustedScoreProvider.

(** ** core/decision_engine.py *)

Module DecisionEngine.

Definition ALLOW_THRESHOLD : Z := 70.
Definition MONITOR_THRESHOLD : Z := 50.

(** The threshold cascade of [make_decision] *)
Definition threshold_decision (score : Z) : Decision * Z :=
  if ALLOW_THRESHOLD <=? score then (ALLOW, score)
  else if MONITOR_THRESHOLD <=? score then (MONITOR, score)
  else (DENY, score).

Section Engine.
Context {R : Type} `{Repositories.ScoreRepository R}.
Variable api_get : PyVal -> Result (option Z).

Record t : Type := { score_provider : TrustedScoreProvider.t }.

Definition make_decision (self : t) (user_id : PyVal) : M R (Decision * Z) :=
  do score <- TrustedScoreProvider.get_score api_get (score_provider self) user_id ;;
  ret (threshold_decision score).

Definition should_enforce_deny (self : t) (d : Decision) : bool :=
  bool_decide (d = DENY).

End Engine.

End DecisionEngine.

(** ** main.py *)

Module Main.

Record Metrics : Type := {
  total_requests : Z;
  allow_count : Z;
  deny_count : Z;
  monitor_count : Z;
  start_time : Q;
  total_latency_ms : Z;
  rate_limit_hits : Z;
  replay_detections : Z;
  active_users : Z
}.

Definition initial_metrics (start : Q) : Metrics := {|
  total_requests := 0; allow_count := 0; deny_count := 0; monitor_count := 0;
  start_time := start; total_latency_ms := 0; rate_limit_hits := 0;
  replay_detections := 0; active_users := 0
|}.

(** [metrics["total_requests"] += 1] and its siblings *)
Definition incr_total_requests (m : Metrics) : Metrics := {|
  total_requests := total_requests m + 1; allow_count := allow_count m;
  deny_count := deny_count m; monitor_count := monitor_count m;
  start_time := start_time m; total_latency_ms := total_latency_ms m;
  rate_limit_hits := rate_limit_hits m;
  replay_detections := replay_detections m; active_users := active_users m
|}.

Definition incr_allow_count (m : Metrics) : Metrics := {|
  total_requests := total_requests m; allow_count := allow_count m + 1;
  deny_count := deny_count m; monitor_count := monitor_count m;
  start_time := start_time m; total_latency_ms := total_latency_ms m;
  rate_limit_hits := rate_limit_hits m;
  replay_detections := replay_detections m; active_users := active_users m
|}.

Definition incr_deny_count (m : Metrics) : Metrics := {|
  total_requests := total_requests m; allow_count := allow_count m;
  deny_count := deny_count m + 1; monitor_count := monitor_count m;
  start_time := start_time m; total_latency_ms := total_latency_ms m;
  rate_limit_hits := rate_limit_hits m;
  replay_detections := replay_detections m; active_users := active_users m
|}.

Definition incr_monitor_count (m : Metrics) : Metrics := {|
  total_requests := total_requests m; allow_count := allow_count m;
  deny_count := deny_count m; monitor_count := monitor_count m + 1;
  start_time := start_time m; total_latency_ms := total_latency_ms m;
  rate_limit_hits := rate_limit_hits m;
  replay_detections := replay_detections m; active_users := active_users m
|}.

(** The module-level state: the metrics dictionary and the components
    created by [lifespan]. *)
Record App (R : Type) : Type := {
  metrics : Metrics;
  rate_limiter : RateLimiter.t;
  replay_cache : ReplayCache.t;
  score_repo : R
}.
Arguments metrics {R} _.
Arguments rate_limiter {R} _.
Arguments replay_cache {R} _.
Arguments score_repo {R} _.

Definition set_metrics {R} (m : Metrics) (a : App R) : App R := {|
  metrics := m; rate_limiter := rate_limiter a;
  replay_cache := replay_cache a; score_repo := score_repo a
|}.

Definition set_rate_limiter {R} (x : RateLimiter.t) (a : App R) : App R := {|
  metrics := metrics a; rate_limiter := x;
  replay_cache := replay_cache a; score_repo := score_repo a
|}.

Definition set_replay_cache {R} (x : ReplayCache.t) (a : App R) : App R := {|
  metrics := metrics a; rate_limiter := rate_limiter a;
  replay_cache := x; score_repo := score_repo a
|}.

Definition set_score_repo {R} (x : R) (a : App R) : App R := {|
  metrics := metrics a; rate_limiter := rate_limiter a;
  replay_cache := replay_cache a; score_repo := x
|}.

(** One POST /validate: the token of the body, the request id, and what the
    clock returns at each place the handler reads it. *)
Record Request : Type := {
  token : string;
  req_id : string;
  utcnow : Q;
  time_rate_limiter : Q;
  time_jwt_validator : Q;
  time_replay_cache : Q
}.

Section Handler.
Context {R : Type} `{Repositories.ScoreRepository R}.
Variable settings : Settings.
Variable jwt_decode : string -> JWTValidator.DecodeOutcome.
Variable api_get : PyVal -> Result (option Z).
Variable sha256_hexdigest : string -> string.

(** The components as [lifespan] builds them from the settings *)
Definition jwt_validator : JWTValidator.t := {|
  JWTValidator.jwt_decode := jwt_decode;
  JWTValidator.clock_drift := jwt_clock_drift_seconds settings
|}.

Definition score_provider : TrustedScoreProvider.t :=
  TrustedScoreProvider.init (Some settings).

Definition decision_engine : DecisionEngine.t :=
  {| DecisionEngine.score_provider := score_provider |}.

Definition lifespan (start : Q) (repo : R) : App R := {|
  metrics := initial_metrics start;
  rate_limiter := RateLimiter.init (rate_limit_requests_per_minute settings);
  replay_cache := ReplayCache.init;
  score_repo := repo
|}.

Definition incr (f : Metrics -> Metrics) : M (App R) unit :=
  modify (fun a => set_metrics (f (metrics a)) a).

(** [reason_map.get(decoded["error"], DenyReason.INTERNAL_ERROR)] *)
Definition reason_map_get (v : PyVal) : Result DenyReason :=
  match py_hash v with
  | Raise e => Raise e
  | Ok (KStr "expired") => Ok EXPIRED_TOKEN
  | Ok (KStr "not_yet_valid") => Ok NOT_YET_VALID
  | Ok (KStr "invalid_signature") => Ok INVALID_SIGNATURE
  | Ok (KStr "malformed") => Ok MALFORMED_TOKEN
  | Ok _ => Ok INTERNAL_ERROR
  end.

(** [await telemetry_logger.emit(event)]: the logger catches every
    exception of its own body, and its effect is on the log only. *)
Definition emit : M (App R) unit := ret tt.

Definition deny (req : Request) (r : DenyReason) : ValidateResponse := {|
  decision := DENY; reason := Some r; request_id := req_id req;
  timestamp := utcnow req; score := None
|}.

(** The [try] block of [validate_token] *)
Definition validate_body (req : Request) : M (App R) ValidateResponse :=
  do allowed <- zoom rate_limiter set_rate_limiter
                  (RateLimiter.is_allowed (time_rate_limiter req)) ;;
  if negb allowed then
    do _ <- incr incr_deny_count ;;
    ret (deny req RATE_LIMIT_EXCEEDED)
  else
    do decoded <- lift_result
                    (JWTValidator.validate_token jwt_validator
                       (time_jwt_validator req) (token req)) ;;
    match decoded !! "error"%string with
    | Some err =>
        do reason <- lift_result (reason_map_get err) ;;
        do _ <- incr incr_deny_count ;;
        ret (deny req reason)
    | None =>
        let user_id := dict_get decoded "sub" in
        let jti := dict_get decoded "jti" in
        do replayed <- zoom replay_cache set_replay_cache
                         (ReplayCache.is_replayed (time_replay_cache req) jti) ;;
        if replayed then
          do _ <- incr incr_deny_count ;;
          ret (deny req REPLAY_DETECTED)
        else
          do _ <- zoom replay_cache set_replay_cache (ReplayCache.record jti None) ;;
          do '(decision, score) <- zoom score_repo set_score_repo
                               (DecisionEngine.make_decision api_get
                                  decision_engine user_id) ;;
          do _ <- incr (match decision with
                        | ALLOW => incr_allow_count
                        | DENY => incr_deny_count
                        | MONITOR => incr_monitor_count
                        end) ;;
          do _ <- (if telemetry_emit_enabled settings then
                     do _ <- lift_result
                               (TrustedScoreProvider.hash_user_id
                                  sha256_hexdigest user_id) ;;
                     emit
                   else ret tt) ;;
          ret {| decision := decision;
                 reason := if bool_decide (decision = DENY)
                           then Some LOW_SCORE else None;
                 request_id := req_id req;
                 timestamp := utcnow req;
                 score := Some score |}
    end.

(** The [except Exception] handler of [validate_token] *)
Definition validate_except (req : Request) (e : Exn) : M (App R) ValidateResponse :=
  do _ <- incr incr_deny_count ;;
  do _ <- (if telemetry_emit_enabled settings then emit else ret tt) ;;
  ret (deny req INTERNAL_ERROR).

Definition validate_token (req : Request) : M (App R) ValidateResponse :=
  do _ <- incr incr_total_requests ;;
  try_except (validate_body req) (validate_except req).

(** The requests of one process, served one after the other; a request
    whose handler raised would get no response. *)
Fixpoint serve (reqs : list Request) (a : App R)
  : list (Result ValidateResponse) * App R :=
  match reqs with
  | [] => ([], a)
  | req :: rest =>
      let '(r, a') := validate_token req a in
      let '(rs, a'') := serve rest a' in
      (r :: rs, a'')
  end.

End Handler.

End Main.

(** ** Sample credentials and requests

    The tokens below stand for signed credentials; [sample_jwt_decode] is what
    [jwt.decode] makes of each under the configured key. *)

Module Samples.

Definition payload_high : gmap string PyVal :=
  {[ "sub"%string := VStr "high_user"; "jti"%string := VStr "jti-1";
     "exp"%string := VInt 2000 ]}.

(** Same principal, another credential, with a self-asserted score *)
Definition payload_high_forged : gmap string PyVal :=
  {[ "sub"%string := VStr "high_user"; "jti"%string := VStr "jti-2";
     "exp"%string := VInt 2500; "score"%string := VInt 5 ]}.

Definition payload_low : gmap string PyVal :=
  {[ "sub"%string := VStr "low_user"; "jti"%string := VStr "jti-3";
     "exp"%string := VInt 2000 ]}.

Definition payload_empty_jti : gmap string PyVal :=
  {[ "sub"%string := VStr "high_user"; "jti"%string := VStr "";
     "exp"%string := VInt 2000 ]}.

Definition payload_no_jti : gmap string PyVal :=
  {[ "sub"%string := VStr "high_user"; "exp"%string := VInt 2000 ]}.

Definition payload_text_exp : gmap string PyVal :=
  {[ "sub"%string := VStr "high_user"; "jti"%string := VStr "jti-4";
     "exp"%string := VStr "tomorrow" ]}.

Definition payload_future : gmap string PyVal :=
  {[ "sub"%string := VStr "high_user"; "jti"%string := VStr "jti-5";
     "exp"%string := VInt 9000; "nbf"%string := VInt 5000 ]}.

Definition sample_jwt_decode (token : string) : JWTValidator.DecodeOutcome :=
  if String.eqb token "high" then JWTValidator.Decoded payload_high
  else if String.eqb token "high-forged" then JWTValidator.Decoded payload_high_forged
  else if String.eqb token "low" then JWTValidator.Decoded payload_low
  else if String.eqb token "empty-jti" then JWTValidator.Decoded payload_empty_jti
  else if String.eqb token "no-jti" then JWTValidator.Decoded payload_no_jti
  else if String.eqb token "text-exp" then JWTValidator.Decoded payload_text_exp
  else if String.eqb token "future" then JWTValidator.Decoded payload_future
  else if String.eqb token "wrong-key" then JWTValidator.InvalidSignatureError
  else JWTValidator.DecodeError.

Definition sample_validator : JWTValidator.t := {|
  JWTValidator.jwt_decode := sample_jwt_decode;
  JWTValidator.clock_drift := 30
|}.

(** No scoring API is configured. *)
Definition no_api (user_id : PyVal) : Result (option Z) := Raise OtherException.

(** A stand-in for the digest, which no property here depends on *)
Definition sample_digest (s : string) : string := s.

(** A request that arrives at time [t], every clock reading being [t] *)
Definition request_at (t : Q) (token : string) : Main.Request := {|
  Main.token := token; Main.req_id := "req";
  Main.utcnow := t; Main.time_rate_limiter := t;
  Main.time_jwt_validator := t; Main.time_replay_cache := t
|}.

(** The gateway of [main.py] after start-up, with its mock repository *)
Definition fresh_app : Main.App unit := Main.lifespan default_settings 0 tt.

Definition handle (req : Main.Request) : M (Main.App unit) ValidateResponse :=
  Main.validate_token default_settings sample_jwt_decode no_api sample_digest req.

Definition serve (reqs : list Main.Request) (a : Main.App unit)
  : list (Result ValidateResponse) * Main.App unit :=
  Main.serve default_settings sample_jwt_decode no_api sample_digest reqs a.

End Samples.

(** ** Predicates used in the statements *)

(** The payload gets through the [exp] and [nbf] checks of the verifier. *)
Definition passes_temporal_checks (self : JWTValidator.t) (time_now : Q)
  (payload : gmap string PyVal) : Prop :=
  let now := py_int time_now in
  let exp := dict_get payload "exp" in
  let nbf := dict_get payload "nbf" in
  exp <> VNone
  /\ (exists bound,
        py_add_int exp (JWTValidator.clock_drift self) = Ok bound /\ now <= bound)
  /\ (nbf = VNone
      \/ exists start,
           py_sub_int nbf (JWTValidator.clock_drift self) = Ok start /\ start <= now).

(** The states of the rate limiter after each call of a series of calls of
    [is_allowed], the calls reading the clock values [times] in turn *)
Fixpoint limiter_trace (times : list Q) (self : RateLimiter.t) : list RateLimiter.t :=
  match times with
  | [] => []
  | now :: rest =>
      let self' := snd (RateLimiter.is_allowed now self) in
      self' :: limiter_trace rest self'
  end.

(** The clock readings [times] never go back, nor below [t0]. *)
Fixpoint non_decreasing_from (t0 : Q) (times : list Q) : Prop :=
  match times with
  | [] => True
  | t :: rest => (t0 <= t)%Q /\ non_decreasing_from t rest
  end.

Definition clock_non_decreasing (times : list Q) : Prop :=
  match times with
  | [] => True
  | t :: rest => non_decreasing_from t rest
  end.

(** What the limiter keeps between calls: the capacity of 120, a refill
    rate that is not negative, and one bucket at most, under the key
    ["global"], with its tokens between 0 and the capacity. *)
Definition bucket_ok (self : RateLimiter.t) : Prop :=
  RateLimiter.max_tokens self = 120%Q
  /\ (0 <= RateLimiter.refill_rate self)%Q
  /\ forall key tokens last_update,
       RateLimiter.state self !! key = Some (tokens, last_update) ->
       key = "global"%string /\ (0 <= tokens)%Q /\ (tokens <= 120)%Q.

Section Admission.
Context {R : Type} `{Repositories.ScoreRepository R}.
Variable settings : Settings.
Variable jwt_decode : string -> JWTValidator.DecodeOutcome.
Variable api_get : PyVal -> Result (option Z).
Variable sha256_hexdigest : string -> string.

(** The request is admitted past the replay check in state [a]: the rate
    limiter lets it in, its credential verifies, and [is_replayed] answers
    [False] for its [jti]; the result is the set element of that [jti]. *)
Definition passes_replay_check (req : Main.Request) (a : Main.App R) : option PyKey :=
  match RateLimiter.is_allowed (Main.time_rate_limiter req) (Main.rate_limiter a) with
  | (Ok true, _) =>
      match JWTValidator.validate_token (Main.jwt_validator settings jwt_decode)
              (Main.time_jwt_validator req) (Main.token req) with
      | Ok decoded =>
          match decoded !! "error"%string with
          | Some _ => None
          | None =>
              match ReplayCache.is_replayed (Main.time_replay_cache req)
                      (dict_get decoded "jti") (Main.replay_cache a) with
              | (Ok false, _) =>
                  match py_hash (dict_get decoded "jti") with
                  | Ok k => Some k
                  | Raise _ => None
                  end
              | _ => None
              end
          end
      | Raise _ => None
      end
  | _ => None
  end.

(** The [jti]s admitted past the replay check while [reqs] are served from
    state [a] *)
Fixpoint admitted_keys (reqs : list Main.Request) (a : Main.App R) : list PyKey :=
  match reqs with
  | [] => []
  | req :: rest =>
      match passes_replay_check req a with
      | Some k => [k]
      | None => []
      end ++
      admitted_keys rest
        (snd (Main.validate_token settings jwt_decode api_get sha256_hexdigest req a))
  end.

End Admission.

(** ** More of the code: limiter answers, endpoints, configuration, test
    credentials *)

(** The answers of a series of calls of [is_allowed], the calls reading the
    clock values [times] in turn *)
Fixpoint limiter_answers (times : list Q) (self : RateLimiter.t) : list (Result bool) :=
  match times with
  | [] => []
  | now :: rest =>
      let '(r, self') := RateLimiter.is_allowed now self in
      r :: limiter_answers rest self'
  end.


(** The cache never holds an expiration for a [jti] it has not seen. *)
Definition timestamps_of_seen (rc : ReplayCache.t) : Prop :=
  dom (ReplayCache.jti_timestamps rc) ⊆ ReplayCache.seen rc.

(** A claim value that arithmetic with an [int] rejects with [TypeError]
    and that is not [None]: a string, a list or a dict. *)
Definition is_text_or_container (v : PyVal) : Prop :=
  match v with
  | VStr _ | VSeq _ => True
  | VNone | VBool _ | VInt _ => False
  end.

(** The four error kinds of the verifier *)
Definition error_kinds : list string :=
  ["malformed"; "expired"; "invalid_signature"; "not_yet_valid"]%string.

(** main.py: GET /metrics and GET /health *)
Module Endpoints.

Record MetricsResponse : Type := {
  total_requests : Z;
  allow_count : Z;
  deny_count : Z;
  monitor_count : Z;
  avg_latency_ms : Q;
  rate_limit_hits : Z;
  replay_detections : Z;
  active_users : Z
}.

Definition get_metrics {R} (a : Main.App R) : MetricsResponse :=
  let metrics := Main.metrics a in
  let total :=
    if Main.total_requests metrics =? 0 then 1 else Main.total_requests metrics in
  {| total_requests := Main.total_requests metrics;
     allow_count := Main.allow_count metrics;
     deny_count := Main.deny_count metrics;
     monitor_count := Main.monitor_count metrics;
     avg_latency_ms := (inject_Z (Main.total_latency_ms metrics) / inject_Z total)%Q;
     rate_limit_hits := Main.rate_limit_hits metrics;
     replay_detections := Main.replay_detections metrics;
     active_users := Main.active_users metrics |}.

Record HealthResponse : Type := {
  status : string;
  version : string;
  uptime_seconds : Z;
  database_connected : bool;
  redis_connected : bool;
  replay_cache_size : nat;
  timestamp : Q
}.

(** [time_now] is the reading of [time.time()], [utcnow] the one of
    [datetime.utcnow()]; the components exist once [lifespan] has run. *)
Definition health_check {R} (app_version : string) (time_now utcnow : Q)
  (a : Main.App R) : HealthResponse :=
  {| status := "healthy";
     version := app_version;
     uptime_seconds := py_int (time_now - Main.start_time (Main.metrics a))%Q;
     database_connected := true;
     redis_connected := true;
     replay_cache_size := ReplayCache.size (Main.replay_cache a);
     timestamp := utcnow |}.

End Endpoints.

(** config.py: the fields that the validators and [get_settings] inspect.
    [ValueError] and the [ValidationError] pydantic wraps it in are
    [OtherException]. *)
Module Config.

Record t : Type := {
  environment : string;
  secret_key : string;
  database_url : string;
  jwt_secret_key : string;
  jwt_algorithm : string
}.

Definition allowed_algorithms : list string :=
  ["RS256"; "RS384"; "RS512"; "ES256"; "ES384"; "ES512"]%string.

Definition allowed_envs : list string :=
  ["development"; "staging"; "production"]%string.

Definition validate_jwt_algorithm (v : string) : Result string :=
  if bool_decide (v ∈ allowed_algorithms) then Ok v else Raise OtherException.

Definition validate_environment (v : string) : Result string :=
  if bool_decide (v ∈ allowed_envs) then Ok v else Raise OtherException.

(** [Settings()]: the field validators run when the object is built. *)
Definition Settings_init (raw : t) : Result t :=
  match validate_jwt_algorithm (jwt_algorithm raw) with
  | Raise e => Raise e
  | Ok alg =>
      match validate_environment (environment raw) with
      | Raise e => Raise e
      | Ok env =>
          Ok {| environment := env; secret_key := secret_key raw;
                database_url := database_url raw;
                jwt_secret_key := jwt_secret_key raw; jwt_algorithm := alg |}
      end
  end.

Definition is_production (self : t) : bool := String.eqb (environment self) "production".

Definition is_development (self : t) : bool := String.eqb (environment self) "development".

Definition get_settings (raw : t) : Result t :=
  match Settings_init raw with
  | Raise e => Raise e
  | Ok settings =>
      if is_production settings then
        if String.eqb (secret_key settings) "" then Raise OtherException
        else if String.eqb (database_url settings) "" then Raise OtherException
        else if String.eqb (jwt_secret_key settings) ""
                && String.prefix "HS" (jwt_algorithm settings)
        then Raise OtherException
        else Ok settings
      else Ok settings
  end.

End Config.

(** scripts/generate_test_jwts.py: the payloads of the generated credentials.
    [now] is [int(time.time())] at generation, [uuid4] what [uuid.uuid4()]
    returns as a string; hours are whole numbers. *)
Module JWTTokenGenerator.

Definition generate_token_payload (now : Z) (uuid4 : string) (user_id : string)
  (jti : option string) (exp_hours nbf_hours : Z)
  (extra_claims : option (gmap string PyVal)) : gmap string PyVal :=
  let payload : gmap string PyVal :=
    {[ "sub"%string := VStr user_id;
       "jti"%string :=
         VStr (match jti with
               | Some j => if String.eqb j "" then uuid4 else j
               | None => uuid4
               end);
       "iat"%string := VInt now;
       "nbf"%string := VInt (now + nbf_hours * 3600);
       "exp"%string := VInt (now + exp_hours * 3600) ]} in
  match extra_claims with
  | Some extra => if bool_decide (extra = ∅) then payload else extra ∪ payload
  | None => payload
  end.

Definition generate_valid_token_payload (now : Z) (uuid4 : string) (user_id : string)
  : gmap string PyVal :=
  generate_token_payload now uuid4 user_id (Some ("valid-" ++ uuid4)%string) 1 0 None.

Definition generate_expired_token_payload (now : Z) (uuid4 : string) (user_id : string)
  : gmap string PyVal :=
  generate_token_payload now uuid4 user_id (Some ("expired-" ++ uuid4)%string) (-1) 0 None.

Definition generate_future_token_payload (now : Z) (uuid4 : string) (user_id : string)
  : gmap string PyVal :=
  generate_token_payload now uuid4 user_id (Some ("future-" ++ uuid4)%string) 2 1 None.

Definition generate_replay_token_payload (now : Z) (uuid4 : string) (jti : string)
  : gmap string PyVal :=
  generate_token_payload now uuid4 "replay-user" (Some jti) 1 0 None.

End JWTTokenGenerator.

(** Further sample credentials: a payload that carries a claim named
    [error], payloads whose [jti] is null or a list, and one whose [sub] is a
    number. *)
Module MoreSamples.

Definition payload_error_claim : gmap string PyVal :=
  {[ "sub"%string := VStr "high_user"; "jti"%string := VStr "jti-e";
     "exp"%string := VInt 2000; "error"%string := VStr "expired" ]}.

Definition payload_null_jti : gmap string PyVal :=
  {[ "sub"%string := VStr "high_user"; "jti"%string := VNone;
     "exp"%string := VInt 2000 ]}.

Definition payload_list_jti : gmap string PyVal :=
  {[ "sub"%string := VStr "high_user"; "jti"%string := VSeq true;
     "exp"%string := VInt 2000 ]}.

Definition payload_number_sub : gmap string PyVal :=
  {[ "sub"%string := VInt 7; "jti"%string := VStr "jti-n";
     "exp"%string := VInt 2000 ]}.

Definition payload_med : gmap string PyVal :=
  {[ "sub"%string := VStr "med_user"; "jti"%string := VStr "jti-m";
     "exp"%string := VInt 2000 ]}.

Definition more_jwt_decode (token : string) : JWTValidator.DecodeOutcome :=
  if String.eqb token "error-claim" then JWTValidator.Decoded payload_error_claim
  else if String.eqb token "null-jti" then JWTValidator.Decoded payload_null_jti
  else if String.eqb token "list-jti" then JWTValidator.Decoded payload_list_jti
  else if String.eqb token "number-sub" then JWTValidator.Decoded payload_number_sub
  else if String.eqb token "med" then JWTValidator.Decoded payload_med
  else Samples.sample_jwt_decode token.

Definition handle (req : Main.Request) : M (Main.App unit) ValidateResponse :=
  Main.validate_token default_settings more_jwt_decode Samples.no_api
    Samples.sample_digest req.

Definition serve (reqs : list Main.Request) (a : Main.App unit)
  : list (Result ValidateResponse) * Main.App unit :=
  Main.serve default_settings more_jwt_decode Samples.no_api
    Samples.sample_digest reqs a.

End MoreSamples.

(** * Properties *)

Ltac unfold_monad :=
  unfold bind, ret, raise, try_except, modify, gets, lift_result, zoom in *.

(** ** Decision engine *)

Section DecisionEngineProps.
Context {R : Type} `{Repositories.ScoreRepository R}.
Variable api_get : PyVal -> Result (option Z).

(** The score provider never raises: its outer handler answers 0. *)
Lemma get_score_total (self : TrustedScoreProvider.t) (user_id : PyVal) (r : R) :
  exists s r', TrustedScoreProvider.get_score api_get self user_id r = (Ok s, r').
Proof.
  unfold TrustedScoreProvider.get_score, try_except.
  match goal with |- context [match ?m r with _ => _ end] => destruct (m r) as [[s|e] r'] end;
    unfold ret; eauto.
Qed.

(** C3: the decision engine maps a score of at least 70 to ALLOW, a score
    from 50 to 69 to MONITOR and a score below 50 to DENY, and returns the
    score it was given; [make_decision] applies this mapping to the score
    of the provider. *)
Theorem C3_threshold_mapping :
  (forall score : Z,
      exists v : Decision,
        DecisionEngine.threshold_decision score = (v, score)
        /\ (v = ALLOW <-> 70 <= score)
        /\ (v = MONITOR <-> 50 <= score < 70)
        /\ (v = DENY <-> score < 50))
  /\ (forall (self : DecisionEngine.t) (user_id : PyVal) (r : R),
         exists score r',
           TrustedScoreProvider.get_score api_get
             (DecisionEngine.score_provider self) user_id r = (Ok score, r')
           /\ DecisionEngine.make_decision api_get self user_id r
              = (Ok (DecisionEngine.threshold_decision score), r')).
Proof.
  split.
  - intros score. unfold DecisionEngine.threshold_decision,
      DecisionEngine.ALLOW_THRESHOLD, DecisionEngine.MONITOR_THRESHOLD.
    destruct (70 <=? score) eqn:Ha.
    + apply Z.leb_le in Ha. exists ALLOW. repeat split; intros; try lia; discriminate.
    + apply Z.leb_gt in Ha. destruct (50 <=? score) eqn:Hm.
      * apply Z.leb_le in Hm. exists MONITOR.
        repeat split; intros; try lia; discriminate.
      * apply Z.leb_gt in Hm. exists DENY.
        repeat split; intros; try lia; discriminate.
  - intros self user_id r.
    destruct (get_score_total (DecisionEngine.score_provider self) user_id r)
      as (s & r' & Hs).
    exists s, r'. split; [exact Hs|].
    unfold DecisionEngine.make_decision, bind. rewrite Hs. reflexivity.
Qed.

End DecisionEngineProps.

(** Boundary scores, on the examples of the unit tests and at the thresholds *)
Example threshold_decision_examples :
  DecisionEngine.threshold_decision 80 = (ALLOW, 80)
  /\ DecisionEngine.threshold_decision 70 = (ALLOW, 70)
  /\ DecisionEngine.threshold_decision 69 = (MONITOR, 69)
  /\ DecisionEngine.threshold_decision 50 = (MONITOR, 50)
  /\ DecisionEngine.threshold_decision 49 = (DENY, 49)
  /\ DecisionEngine.threshold_decision 0 = (DENY, 0).
Proof. repeat split. Qed.

(** ** Credential verifier *)

Section JWTValidatorProps.
Import JWTValidator.

Variable self : JWTValidator.t.
Variable time_now : Q.
Variable token : string.
Variable payload : gmap string PyVal.
Hypothesis token_not_empty : token <> ""%string.
Hypothesis signature_valid : jwt_decode self token = Decoded payload.

Lemma validate_token_decoded :
  validate_token self time_now token =
    let now := py_int time_now in
    let exp := dict_get payload "exp" in
    if bool_decide (exp = VNone) then Ok (error_dict "malformed")
    else
      rbind (py_add_int exp (clock_drift self)) (fun bound =>
      if bound <? now then Ok (error_dict "expired")
      else
        let nbf := dict_get payload "nbf" in
        rbind (if bool_decide (nbf = VNone) then Ok false
               else rbind (py_sub_int nbf (clock_drift self))
                      (fun start => Ok (now <? start)))
          (fun immature =>
        if immature then Ok (error_dict "not_yet_valid")
        else if bool_decide (payload !! "jti"%string = None)
                || bool_decide (payload !! "sub"%string = None)
        then Ok (error_dict "malformed")
        else Ok payload)).
Proof.
  unfold validate_token. rewrite signature_valid.
  destruct (String.eqb token "") eqn:E; [|reflexivity].
  apply String.eqb_eq in E. contradiction.
Qed.

(** C5: on a credential whose signature verifies, an absent [exp] gives
    the malformed error; an integer [exp] with [now > exp + clock_drift]
    gives the expired error; otherwise an integer [nbf] with
    [now < nbf - clock_drift] gives the not-yet-valid error; and with
    [now] within [clock_drift] of [exp] the credential is not expired. *)
Theorem C5_temporal_checks :
  let now := py_int time_now in
  let d := clock_drift self in
  let result := validate_token self time_now token in
  (payload !! "exp"%string = None -> result = Ok (error_dict "malformed"))
  /\ (forall e : Z, payload !! "exp"%string = Some (VInt e) ->
        (now > e + d -> result = Ok (error_dict "expired"))
        /\ (now <= e + d ->
            forall n : Z, payload !! "nbf"%string = Some (VInt n) ->
              now < n - d -> result = Ok (error_dict "not_yet_valid"))
        /\ (e - d <= now <= e + d -> result <> Ok (error_dict "expired"))).
Proof.
  cbv zeta. rewrite validate_token_decoded. cbv zeta. unfold dict_get.
  split.
  - intros ->. reflexivity.
  - intros e ->. cbn [from_option id py_add_int rbind].
    rewrite bool_decide_eq_false_2 by discriminate.
    repeat split.
    + intros Hgt. destruct (e + clock_drift self <? py_int time_now) eqn:E;
        [reflexivity|]. apply Z.ltb_ge in E. lia.
    + intros Hle n -> Hlt. cbn [from_option id py_sub_int rbind].
      destruct (e + clock_drift self <? py_int time_now) eqn:E;
        [apply Z.ltb_lt in E; lia|].
      rewrite bool_decide_eq_false_2 by discriminate. cbn [rbind].
      destruct (py_int time_now <? n - clock_drift self) eqn:E2;
        [reflexivity|]. apply Z.ltb_ge in E2. lia.
    + intros [_ Hle].
      destruct (e + clock_drift self <? py_int time_now) eqn:E;
        [apply Z.ltb_lt in E; lia|].
      repeat match goal with
             | |- context [bool_decide ?P] => destruct (bool_decide P) eqn:?
             | |- context [py_sub_int ?v ?n] => destruct (py_sub_int v n) eqn:?
             | |- context [?a <? ?b] => destruct (a <? b) eqn:?
             | _ => progress cbn [rbind orb]
             end;
        try discriminate; intros [= Hm];
        try (apply (f_equal (fun m : gmap string PyVal => m !! "error"%string)) in Hm;
             vm_compute in Hm; discriminate).
      all: rewrite Hm in *;
        match goal with
        | Hk : bool_decide (error_dict _ !! _ = None) = false |- _ =>
            vm_compute in Hk; discriminate
        end.
Qed.

(** C7, as the code has it: on a credential that passes the signature and
    temporal checks, the verifier returns the malformed error whenever the
    key [sub] or the key [jti] is absent from the payload, and returns the
    payload itself when both keys are present, whatever their values; so a
    result without an [error] key always has both keys. *)
Theorem C7_required_keys :
  passes_temporal_checks self time_now payload ->
  let result := validate_token self time_now token in
  (payload !! "sub"%string = None \/ payload !! "jti"%string = None ->
   result = Ok (error_dict "malformed"))
  /\ (is_Some (payload !! "sub"%string) -> is_Some (payload !! "jti"%string) ->
      result = Ok payload)
  /\ (forall p, result = Ok p -> p !! "error"%string = None ->
      is_Some (p !! "sub"%string) /\ is_Some (p !! "jti"%string)).
Proof.
  intros (Hexp & (bound & Hb & Hle) & Hnbf). cbv zeta.
  rewrite validate_token_decoded. cbv zeta.
  rewrite bool_decide_eq_false_2 by exact Hexp.
  rewrite Hb. cbn [rbind].
  replace (bound <? py_int time_now) with false
    by (symmetry; apply Z.ltb_ge; exact Hle).
  assert (Himm :
    (if bool_decide (dict_get payload "nbf" = VNone) then Ok false
     else rbind (py_sub_int (dict_get payload "nbf") (clock_drift self))
            (fun start => Ok (py_int time_now <? start))) = Ok false).
  { destruct Hnbf as [Hn | (start & Hs & Hle')].
    - rewrite bool_decide_eq_true_2 by exact Hn. reflexivity.
    - destruct (bool_decide (dict_get payload "nbf" = VNone)); [reflexivity|].
      rewrite Hs. cbn [rbind]. f_equal. apply Z.ltb_ge. exact Hle'. }
  rewrite Himm. cbn [rbind].
  split; [|split].
  - intros [Hs | Hj].
    + rewrite (bool_decide_eq_true_2 _ Hs), orb_true_r. reflexivity.
    + rewrite (bool_decide_eq_true_2 _ Hj). reflexivity.
  - intros [s Hs] [j Hj].
    rewrite !bool_decide_eq_false_2 by congruence. reflexivity.
  - intros p Hres Herr.
    destruct (bool_decide (payload !! "jti"%string = None)) eqn:Ej;
      destruct (bool_decide (payload !! "sub"%string = None)) eqn:Es;
      cbn [orb] in Hres; injection Hres as <-;
      try (vm_compute in Herr; discriminate).
    apply bool_decide_eq_false in Es, Ej.
    split.
    + destruct (payload !! "sub"%string); [eauto | contradiction].
    + destruct (payload !! "jti"%string); [eauto | contradiction].
Qed.

End JWTValidatorProps.

(** C5 on sample credentials: [exp] = 2000 with a drift of 30 is accepted at
    2020 and expired at 2031; [nbf] = 5000 is not yet valid at 1000. *)
Lemma C5_temporal_checks_witness :
  JWTValidator.validate_token Samples.sample_validator 2020 "high"
    <> Ok (JWTValidator.error_dict "expired")
  /\ JWTValidator.validate_token Samples.sample_validator 2031 "high"
     = Ok (JWTValidator.error_dict "expired")
  /\ JWTValidator.validate_token Samples.sample_validator 1000 "future"
     = Ok (JWTValidator.error_dict "not_yet_valid").
Proof.
  split; [|split].
  - pose proof (C5_temporal_checks Samples.sample_validator 2020 "high"
                  Samples.payload_high ltac:(discriminate) eq_refl) as [_ Hexp].
    destruct (Hexp 2000 ltac:(vm_compute; reflexivity)) as (_ & _ & Hdrift).
    apply Hdrift. split; vm_compute; discriminate.
  - pose proof (C5_temporal_checks Samples.sample_validator 2031 "high"
                  Samples.payload_high ltac:(discriminate) eq_refl) as [_ Hexp].
    destruct (Hexp 2000 ltac:(vm_compute; reflexivity)) as (Hlate & _ & _).
    apply Hlate. vm_compute. reflexivity.
  - pose proof (C5_temporal_checks Samples.sample_validator 1000 "future"
                  Samples.payload_future ltac:(discriminate) eq_refl) as [_ Hexp].
    destruct (Hexp 9000 ltac:(vm_compute; reflexivity)) as (_ & Hnbf & _).
    apply (Hnbf ltac:(vm_compute; discriminate) 5000);
      vm_compute; reflexivity.
Defined.

(** C7, as stated, fails: a credential whose [jti] is the empty string
    passes the verifier, which returns its payload as a success. *)
Lemma C7_empty_jti_is_returned :
  JWTValidator.validate_token Samples.sample_validator 1000 "empty-jti"
    = Ok Samples.payload_empty_jti
  /\ Samples.payload_empty_jti !! "error"%string = None
  /\ Samples.payload_empty_jti !! "jti"%string = Some (VStr "").
Proof. vm_compute. repeat split. Qed.

(** C7 on a sample credential without a [jti] key *)
Lemma C7_required_keys_witness :
  JWTValidator.validate_token Samples.sample_validator 1000 "no-jti"
    = Ok (JWTValidator.error_dict "malformed").
Proof.
  assert (Hpass : passes_temporal_checks Samples.sample_validator 1000
                    Samples.payload_no_jti).
  { split; [vm_compute; discriminate|]. split.
    - exists 2030. split; [reflexivity | vm_compute; discriminate].
    - left. reflexivity. }
  destruct (C7_required_keys Samples.sample_validator 1000 "no-jti"
              Samples.payload_no_jti ltac:(discriminate) eq_refl Hpass)
    as (Habsent & _ & _).
  apply Habsent. right. reflexivity.
Defined.

(** ** Score provider *)

Section ScoreProviderProps.
Context {R : Type} `{Repositories.ScoreRepository R}.
Variable api_get : PyVal -> Result (option Z).

(** C6, as the code has it: [get_score] never raises; it returns 0 on
    every error path, for an absent record and for an unrecognised backend
    type, and otherwise returns the value of the backend as it is.  The
    result is therefore in [0, 100] whenever the values of the backend are;
    no range check is made. *)
Theorem C6_get_score_fail_closed
  (self : TrustedScoreProvider.t) (user_id : PyVal) (r : R) :
  exists (s : Z) (r' : R),
    TrustedScoreProvider.get_score api_get self user_id r = (Ok s, r')
    /\ (s = 0
        \/ (exists r0 r1, Repositories.get_score user_id r0 = (Ok (Some s), r1))
        \/ (exists r0 r1, Repositories.get_cached_score user_id r0 = (Ok (Some s), r1))
        \/ api_get user_id = Ok (Some s))
    /\ (TrustedScoreProvider.provider_type self <> "database"%string ->
        TrustedScoreProvider.provider_type self <> "redis"%string ->
        TrustedScoreProvider.provider_type self <> "external_api"%string ->
        s = 0 /\ r' = r)
    /\ (TrustedScoreProvider.provider_type self = "database"%string ->
        match Repositories.get_score user_id r with
        | (Ok (Some v), r1) => s = v /\ r' = r1
        | (Ok None, r1) | (Raise _, r1) => s = 0 /\ r' = r1
        end)
    /\ (TrustedScoreProvider.provider_type self = "redis"%string ->
        match Repositories.get_cached_score user_id r with
        | (Ok (Some c), r1) => s = c /\ r' = r1
        | (Raise _, r1) => s = 0 /\ r' = r1
        | (Ok None, r1) =>
            match Repositories.get_score user_id r1 with
            | (Ok (Some v), r2) =>
                match Repositories.cache_score user_id v
                        (match TrustedScoreProvider.settings self with
                         | Some st => score_cache_ttl_seconds st
                         | None => 300
                         end) r2 with
                | (Ok _, r3) => s = v /\ r' = r3
                | (Raise _, r3) => s = 0 /\ r' = r3
                end
            | (Ok None, r2) | (Raise _, r2) => s = 0 /\ r' = r2
            end
        end)
    /\ (TrustedScoreProvider.provider_type self = "external_api"%string ->
        r' = r
        /\ match TrustedScoreProvider.settings self, api_get user_id with
           | Some _, Ok (Some v) => s = v
           | _, _ => s = 0
           end)
    /\ ((forall u r0 r1 v,
            Repositories.get_score u r0 = (Ok (Some v), r1) -> 0 <= v <= 100) ->
        (forall u r0 r1 v,
            Repositories.get_cached_score u r0 = (Ok (Some v), r1) -> 0 <= v <= 100) ->
        (forall u v, api_get u = Ok (Some v) -> 0 <= v <= 100) ->
        0 <= s <= 100).
Proof.
  assert (Hcore : exists (s : Z) (r' : R),
    TrustedScoreProvider.get_score api_get self user_id r = (Ok s, r')
    /\ (s = 0
        \/ (exists r0 r1, Repositories.get_score user_id r0 = (Ok (Some s), r1))
        \/ (exists r0 r1, Repositories.get_cached_score user_id r0 = (Ok (Some s), r1))
        \/ api_get user_id = Ok (Some s))).
  { unfold TrustedScoreProvider.get_score, TrustedScoreProvider._get_from_database,
      TrustedScoreProvider._get_from_redis, TrustedScoreProvider._get_from_api.
    unfold_monad.
    repeat match goal with
           | |- context [String.eqb ?a ?b] => destruct (String.eqb a b)
           | |- context [match Repositories.get_score ?u ?x with _ => _ end] =>
               let E := fresh "E" in
               destruct (Repositories.get_score u x) as [[[?|]|?] ?] eqn:E
           | |- context [match Repositories.get_cached_score ?u ?x with _ => _ end] =>
               let E := fresh "E" in
               destruct (Repositories.get_cached_score u x) as [[[?|]|?] ?] eqn:E
           | |- context [match Repositories.cache_score ?u ?v ?t ?x with _ => _ end] =>
               destruct (Repositories.cache_score u v t x) as [[?|?] ?]
           | |- context [match TrustedScoreProvider.settings self with _ => _ end] =>
               destruct (TrustedScoreProvider.settings self)
           | |- context [match api_get ?u with _ => _ end] =>
               let E := fresh "E" in destruct (api_get u) as [[?|]|?] eqn:E
           end;
      eexists _, _; (split; [reflexivity|]); eauto 8. }
  destruct Hcore as (s & r' & Hrun & Hprov).
  exists s, r'. split; [exact Hrun|]. split; [exact Hprov|].
  revert Hrun.
  unfold TrustedScoreProvider.get_score, TrustedScoreProvider._get_from_database,
    TrustedScoreProvider._get_from_redis, TrustedScoreProvider._get_from_api.
  unfold_monad. intros Hrun.
  split; [|split; [|split; [|split]]].
  - intros Hd Hr Ha.
    apply String.eqb_neq in Hd, Hr, Ha. rewrite Hd, Hr, Ha in Hrun.
    injection Hrun as <- <-. split; reflexivity.
  - intros Hd. rewrite Hd in Hrun. cbn [String.eqb Ascii.eqb Bool.eqb] in Hrun.
    destruct (Repositories.get_score user_id r) as [[[v|]|e] r1];
      injection Hrun as <- <-; split; reflexivity.
  - intros Hd. rewrite Hd in Hrun. cbn [String.eqb Ascii.eqb Bool.eqb] in Hrun.
    destruct (Repositories.get_cached_score user_id r) as [[[c|]|e] r1];
      [injection Hrun as <- <-; split; reflexivity| |
       injection Hrun as <- <-; split; reflexivity].
    destruct (Repositories.get_score user_id r1) as [[[v|]|e] r2];
      [|injection Hrun as <- <-; split; reflexivity
       |injection Hrun as <- <-; split; reflexivity].
    destruct (Repositories.cache_score user_id v _ r2) as [[[]|e] r3];
      injection Hrun as <- <-; split; reflexivity.
  - intros Hd. rewrite Hd in Hrun. cbn [String.eqb Ascii.eqb Bool.eqb] in Hrun.
    destruct (TrustedScoreProvider.settings self);
      [|injection Hrun as <- <-; split; reflexivity].
    destruct (api_get user_id) as [[v|]|e];
      injection Hrun as <- <-; split; reflexivity.
  - intros Hdb Hca Hapi.
    destruct Hprov as [-> | [(r0 & r1 & Hv) | [(r0 & r1 & Hv) | Hv]]];
      [lia | eauto | eauto | eauto].
Qed.

End ScoreProviderProps.

(** C6, as stated, fails: a backend record of 150 is returned as it is,
    neither clamped into [0, 100] nor replaced by 0. *)
Lemma C6_out_of_range_score_returned :
  TrustedScoreProvider.get_score Samples.no_api
    (TrustedScoreProvider.init (Some default_settings)) (VStr "high_user")
    {| Repositories.fixed_record := Some 150 |}
  = (Ok 150, {| Repositories.fixed_record := Some 150 |}).
Proof. reflexivity. Qed.

(** The provider on the mock repository of [main.py] *)
Example get_score_mock_examples :
  fst (TrustedScoreProvider.get_score Samples.no_api
         (TrustedScoreProvider.init (Some default_settings)) (VStr "high_user") tt)
    = Ok 95
  /\ fst (TrustedScoreProvider.get_score Samples.no_api
            (TrustedScoreProvider.init (Some default_settings)) (VStr "nobody") tt)
     = Ok 5
  /\ fst (TrustedScoreProvider.get_score Samples.no_api
            (TrustedScoreProvider.init (Some default_settings)) VNone tt)
     = Ok 0
  /\ fst (TrustedScoreProvider.get_score Samples.no_api
            (TrustedScoreProvider.init None) (VStr "high_user")
            {| Repositories.fixed_record := None |})
     = Ok 0.
Proof. repeat split. Qed.

(** ** Pipeline orchestrator *)

(** Case analysis on the innermost scrutinee of the goal or of a hypothesis *)
Ltac break_inner :=
  match goal with
  | |- context [match ?x with _ => _ end] =>
      lazymatch x with
      | context [match _ with _ => _ end] => fail
      | _ => destruct x eqn:?
      end
  | H : context [match ?x with _ => _ end] |- _ =>
      lazymatch x with
      | context [match _ with _ => _ end] => fail
      | _ => destruct x eqn:?
      end
  end.

Ltac inv_pair :=
  repeat match goal with
         | H : (_, _) = (_, _) |- _ => injection H as ? ?
         | H : Ok _ = Ok _ |- _ => injection H as ?
         | H : Raise _ = Raise _ |- _ => injection H as ?
         | H : Ok _ = Raise _ |- _ => discriminate H
         | H : Raise _ = Ok _ |- _ => discriminate H
         end.

Ltac bool_facts :=
  repeat match goal with
         | H : bool_decide _ = true |- _ => apply bool_decide_eq_true in H
         | H : bool_decide _ = false |- _ => apply bool_decide_eq_false in H
         | H : negb _ = true |- _ => apply negb_true_iff in H
         | H : negb _ = false |- _ => apply negb_false_iff in H
         end.

Section MainProps.
Context {R : Type} `{Repositories.ScoreRepository R}.
Variable settings : Settings.
Variable jwt_decode : string -> JWTValidator.DecodeOutcome.
Variable api_get : PyVal -> Result (option Z).
Variable sha256_hexdigest : string -> string.

Local Abbreviation validate_body := (Main.validate_body settings jwt_decode api_get sha256_hexdigest).
Local Abbreviation validate_token := (Main.validate_token settings jwt_decode api_get sha256_hexdigest).
Local Abbreviation serve := (Main.serve settings jwt_decode api_get sha256_hexdigest).

(** The [try] block leaves [total_requests] alone, whether it returns or
    raises. *)
Lemma body_total_requests (req : Main.Request) (a a' : Main.App R)
  (r : Result ValidateResponse) :
  validate_body req a = (r, a') ->
  Main.total_requests (Main.metrics a') = Main.total_requests (Main.metrics a).
Proof.
  unfold Main.validate_body. unfold_monad. unfold Main.incr, modify, Main.emit, ret.
  intros Hrun.
  repeat (break_inner; inv_pair; subst; try discriminate); reflexivity.
Qed.

(** A response of the [try] block echoes the request and carries a reason
    exactly when it denies. *)
Lemma validate_body_well_formed (req : Main.Request) (a a' : Main.App R)
  (resp : ValidateResponse) :
  validate_body req a = (Ok resp, a') ->
  (reason resp <> None <-> decision resp = DENY)
  /\ request_id resp = Main.req_id req
  /\ timestamp resp = Main.utcnow req.
Proof.
  unfold Main.validate_body. unfold_monad. unfold Main.incr, modify, Main.emit, ret.
  intros Hrun.
  repeat (break_inner; inv_pair; subst; try discriminate);
    bool_facts; cbn; repeat split; intros; try congruence; try discriminate.
Qed.

(** The handler of [except Exception] cannot raise. *)
Lemma validate_except_total (req : Main.Request) (e : Exn) (a : Main.App R) :
  Main.validate_except settings req e a
  = (Ok (Main.deny req INTERNAL_ERROR),
     Main.set_metrics (Main.incr_deny_count (Main.metrics a)) a).
Proof.
  unfold Main.validate_except, Main.incr, Main.emit. unfold_monad.
  destruct (telemetry_emit_enabled settings); reflexivity.
Qed.

(** C1: [validate_token] returns a response for every request and every
    state of the gateway, and never raises; the response echoes the request
    id and carries a deny reason exactly when the verdict is DENY; and when
    anything raises inside the [try] block, the response is
    DENY/INTERNAL_ERROR and [deny_count] is one more than it was when the
    exception was raised. *)
Theorem C1_validate_always_responds (req : Main.Request) (a : Main.App R) :
  exists (resp : ValidateResponse) (a' : Main.App R),
    validate_token req a = (Ok resp, a')
    /\ (reason resp <> None <-> decision resp = DENY)
    /\ request_id resp = Main.req_id req
    /\ timestamp resp = Main.utcnow req
    /\ Main.total_requests (Main.metrics a')
       = Main.total_requests (Main.metrics a) + 1
    /\ (forall (e : Exn) (a1 : Main.App R),
          validate_body req
            (Main.set_metrics (Main.incr_total_requests (Main.metrics a)) a)
          = (Raise e, a1) ->
          resp = Main.deny req INTERNAL_ERROR
          /\ decision resp = DENY
          /\ reason resp = Some INTERNAL_ERROR
          /\ Main.deny_count (Main.metrics a')
             = Main.deny_count (Main.metrics a1) + 1).
Proof.
  unfold Main.validate_token, Main.incr, bind, modify, try_except.
  destruct (validate_body req
              (Main.set_metrics (Main.incr_total_requests (Main.metrics a)) a))
    as [[resp | e] a1] eqn:Hbody.
  - exists resp, a1. split; [reflexivity|].
    destruct (validate_body_well_formed _ _ _ _ Hbody) as (Hiff & Hid & Hts).
    repeat split; try tauto; try (intros; discriminate).
    rewrite (body_total_requests _ _ _ _ Hbody). reflexivity.
  - rewrite validate_except_total.
    eexists _, _. split; [reflexivity|].
    split; [cbn; split; intros; [reflexivity | discriminate]|].
    split; [reflexivity|]. split; [reflexivity|].
    split.
    + cbn. rewrite (body_total_requests _ _ _ _ Hbody). reflexivity.
    + intros e' a1' [= -> ->]. repeat split.
Qed.

(** Where a response carries a score, the credential was verified and the
    score is what the provider answers for the [sub] claim of its payload on
    the backend as the request found it. *)
Lemma validate_token_score (req : Main.Request) (a a' : Main.App R)
  (resp : ValidateResponse) (s : Z) :
  validate_token req a = (Ok resp, a') ->
  score resp = Some s ->
  exists p,
    JWTValidator.validate_token (Main.jwt_validator settings jwt_decode)
      (Main.time_jwt_validator req) (Main.token req) = Ok p
    /\ p !! "error"%string = None
    /\ fst (TrustedScoreProvider.get_score api_get (Main.score_provider settings)
              (dict_get p "sub") (Main.score_repo a)) = Ok s.
Proof.
  unfold Main.validate_token, Main.validate_except, Main.validate_body,
    DecisionEngine.make_decision, DecisionEngine.threshold_decision.
  unfold_monad. unfold Main.incr, modify, Main.emit, ret.
  intros Hrun Hscore.
  repeat (break_inner; inv_pair; subst; try discriminate);
    cbn in *; try discriminate; inv_pair; subst;
    eexists; (split; [reflexivity|]); (split; [assumption|]);
    match goal with
    | Hg : TrustedScoreProvider.get_score _ _ _ _ = _ |- _ => rewrite Hg
    end; cbn; congruence.
Qed.

(** C2: two credentials that verify and carry the same [sub] get the same
    score, on the same backend, whatever else their payloads hold and
    whatever the rest of the gateway state is: the score of a response is
    what the provider answers for [sub]. *)
Theorem C2_score_depends_on_sub_only
  (req1 req2 : Main.Request) (a1 a2 a1' a2' : Main.App R)
  (p1 p2 : gmap string PyVal) (resp1 resp2 : ValidateResponse) (s1 s2 : Z) :
  JWTValidator.validate_token (Main.jwt_validator settings jwt_decode)
    (Main.time_jwt_validator req1) (Main.token req1) = Ok p1 ->
  JWTValidator.validate_token (Main.jwt_validator settings jwt_decode)
    (Main.time_jwt_validator req2) (Main.token req2) = Ok p2 ->
  dict_get p1 "sub" = dict_get p2 "sub" ->
  Main.score_repo a1 = Main.score_repo a2 ->
  validate_token req1 a1 = (Ok resp1, a1') ->
  validate_token req2 a2 = (Ok resp2, a2') ->
  score resp1 = Some s1 ->
  score resp2 = Some s2 ->
  s1 = s2
  /\ fst (TrustedScoreProvider.get_score api_get (Main.score_provider settings)
            (dict_get p1 "sub") (Main.score_repo a1)) = Ok s1.
Proof.
  intros Hv1 Hv2 Hsub Hrepo Hrun1 Hrun2 Hs1 Hs2.
  destruct (validate_token_score _ _ _ _ _ Hrun1 Hs1) as (q1 & Hq1 & _ & Hg1).
  destruct (validate_token_score _ _ _ _ _ Hrun2 Hs2) as (q2 & Hq2 & _ & Hg2).
  rewrite Hv1 in Hq1. rewrite Hv2 in Hq2.
  injection Hq1 as <-. injection Hq2 as <-.
  split; [|exact Hg1].
  rewrite <- Hsub, <- Hrepo, Hg1 in Hg2. congruence.
Qed.

(** No path of the handler touches the counters [rate_limit_hits] and
    [replay_detections]. *)
Lemma validate_token_hit_counters (req : Main.Request) (a a' : Main.App R)
  (r : Result ValidateResponse) :
  validate_token req a = (r, a') ->
  Main.rate_limit_hits (Main.metrics a') = Main.rate_limit_hits (Main.metrics a)
  /\ Main.replay_detections (Main.metrics a')
     = Main.replay_detections (Main.metrics a).
Proof.
  unfold Main.validate_token, Main.validate_except, Main.validate_body.
  unfold_monad. unfold Main.incr, modify, Main.emit, ret.
  intros Hrun.
  repeat (break_inner; inv_pair; subst; try discriminate); split; reflexivity.
Qed.

End MainProps.

(** C1 on a credential whose [exp] is a string: the comparison of the
    verifier raises [TypeError], and the handler answers DENY/INTERNAL_ERROR. *)
Lemma C1_validate_always_responds_witness :
  exists a' : Main.App unit,
    Samples.handle (Samples.request_at 1000 "text-exp") Samples.fresh_app
    = (Ok (Main.deny (Samples.request_at 1000 "text-exp") INTERNAL_ERROR), a')
    /\ Main.deny_count (Main.metrics a') = 1.
Proof.
  destruct (C1_validate_always_responds default_settings Samples.sample_jwt_decode
              Samples.no_api Samples.sample_digest
              (Samples.request_at 1000 "text-exp") Samples.fresh_app)
    as (resp & a' & Hrun & _ & _ & _ & _ & Hexc).
  edestruct (Hexc TypeError) as (-> & _ & _ & Hcount); [reflexivity|].
  exists a'. split; [exact Hrun | exact Hcount].
Defined.

(** C2 on two credentials of [high_user], one of them carrying a [score]
    claim of 5: both are scored 95 by the mock repository. *)
Lemma C2_score_depends_on_sub_only_witness :
  fst (TrustedScoreProvider.get_score Samples.no_api
         (Main.score_provider default_settings)
         (dict_get Samples.payload_high "sub") tt) = Ok 95.
Proof.
  pose (req1 := Samples.request_at 1000 "high").
  pose (req2 := Samples.request_at 1500 "high-forged").
  pose (st1 := Samples.handle req1 Samples.fresh_app).
  pose (st2 := Samples.handle req2 (snd st1)).
  refine (proj2 (C2_score_depends_on_sub_only default_settings
            Samples.sample_jwt_decode Samples.no_api Samples.sample_digest
            req1 req2 Samples.fresh_app (snd st1) (snd st1) (snd st2)
            Samples.payload_high Samples.payload_high_forged
            {| decision := ALLOW; reason := None; request_id := "req";
               timestamp := 1000; score := Some 95 |}
            {| decision := ALLOW; reason := None; request_id := "req";
               timestamp := 1500; score := Some 95 |}
            95 95 _ _ _ _ _ _ _ _));
    vm_compute; reflexivity.
Defined.

(** C9, on the code: a credential presented twice is denied as a replay the
    second time, and a 121st request within one second is refused by the
    rate limiter; [deny_count] counts both, while [replay_detections] and
    [rate_limit_hits] are still 0. *)
Theorem C9_hit_counters_not_incremented :
  (let '(resps, a) :=
     Samples.serve [Samples.request_at 1000 "high"; Samples.request_at 1000 "high"]
       Samples.fresh_app in
   resps !! 1%nat
   = Some (Ok (Main.deny (Samples.request_at 1000 "high") REPLAY_DETECTED))
   /\ Main.deny_count (Main.metrics a) = 1
   /\ Main.replay_detections (Main.metrics a) = 0)
  /\ (let '(resps, a) :=
        Samples.serve (repeat (Samples.request_at 1000 "high") 121)
          Samples.fresh_app in
      resps !! 120%nat
      = Some (Ok (Main.deny (Samples.request_at 1000 "high") RATE_LIMIT_EXCEEDED))
      /\ Main.deny_count (Main.metrics a) = 120
      /\ Main.rate_limit_hits (Main.metrics a) = 0).
Proof. vm_compute. repeat split. Qed.

(** ** Rate limiter *)

Section RateLimiterProps.
Local Open Scope Q_scope.

Lemma Qltb_true (x y : Q) : Qltb x y = true <-> x < y.
Proof.
  unfold Qltb. rewrite negb_true_iff. split.
  - intros Hb. apply Qnot_le_lt. intros Hle.
    apply Qle_bool_iff in Hle. congruence.
  - intros Hlt. destruct (Qle_bool y x) eqn:E; [|reflexivity].
    apply Qle_bool_iff in E. exfalso. apply (Qlt_not_le _ _ Hlt E).
Qed.

Lemma Qltb_false (x y : Q) : Qltb x y = false <-> y <= x.
Proof.
  unfold Qltb. rewrite negb_false_iff. apply Qle_bool_iff.
Qed.

Lemma init_bucket_ok (requests_per_minute : Z) :
  (0 <= requests_per_minute)%Z -> bucket_ok (RateLimiter.init requests_per_minute).
Proof.
  intros Hrpm. split; [reflexivity|]. split.
  - cbn. unfold Qdiv. apply Qmult_le_0_compat.
    + rewrite Zle_Qle in Hrpm. exact Hrpm.
    + discriminate.
  - intros key tokens lu Hl. cbn in Hl. rewrite lookup_empty in Hl. discriminate.
Qed.

(** One call: the bucket stays within bounds and records the clock reading. *)
Ltac rl_simpl :=
  cbn [RateLimiter.state RateLimiter.set_state RateLimiter.max_tokens
       RateLimiter.refill_rate snd fst].
Ltac rl_simpl_in H :=
  cbn [RateLimiter.state RateLimiter.set_state RateLimiter.max_tokens
       RateLimiter.refill_rate snd fst] in H.

Lemma is_allowed_step (now : Q) (self : RateLimiter.t) :
  bucket_ok self ->
  (forall tokens last_update,
      RateLimiter.state self !! "global"%string = Some (tokens, last_update) ->
      last_update <= now) ->
  let self' := snd (RateLimiter.is_allowed now self) in
  bucket_ok self'
  /\ exists tokens, RateLimiter.state self' !! "global"%string = Some (tokens, now).
Proof.
  intros (Hmax & Hrate & Hst) Hclock. cbv zeta.
  unfold RateLimiter.is_allowed. unfold_monad.
  destruct (RateLimiter.state self !! "global"%string) as [[tokens lu]|] eqn:Hg.
  - destruct (Hst _ _ _ Hg) as (_ & Hlo & Hhi).
    pose proof (Hclock _ _ eq_refl) as Hlu.
    assert (Hrefill : 0 <= (now - lu) * RateLimiter.refill_rate self).
    { apply Qmult_le_0_compat; [lra | exact Hrate]. }
    set (filled := Qmin (RateLimiter.max_tokens self)
                     (tokens + (now - lu) * RateLimiter.refill_rate self)).
    assert (Hfilled : 0 <= filled /\ filled <= 120).
    { unfold filled. rewrite Hmax. split.
      - apply Q.min_glb; lra.
      - apply Q.le_min_l. }
    destruct (Qltb filled 1) eqn:Hlt; rl_simpl.
    + split; [|exists filled; apply lookup_insert_eq].
      split; [exact Hmax|]. split; [exact Hrate|].
      intros key tk l Hl. rl_simpl_in Hl. destruct (decide (key = "global"%string)) as [->|Hne].
      * rewrite lookup_insert_eq in Hl. injection Hl as <- <-. tauto.
      * rewrite lookup_insert_ne in Hl by congruence.
        destruct (Hst _ _ _ Hl) as (Hk & _). contradiction.
    + apply Qltb_false in Hlt.
      split; [|exists (filled - 1); apply lookup_insert_eq].
      split; [exact Hmax|]. split; [exact Hrate|].
      intros key tk l Hl. rl_simpl_in Hl. destruct (decide (key = "global"%string)) as [->|Hne].
      * rewrite lookup_insert_eq in Hl. injection Hl as <- <-.
        split; [reflexivity|]. lra.
      * rewrite lookup_insert_ne in Hl by congruence.
        destruct (Hst _ _ _ Hl) as (Hk & _). contradiction.
  - rl_simpl. split; [|eexists; apply lookup_insert_eq].
    split; [exact Hmax|]. split; [exact Hrate|].
    intros key tk l Hl. rl_simpl_in Hl. destruct (decide (key = "global"%string)) as [->|Hne].
    + rewrite lookup_insert_eq in Hl. injection Hl as <- <-.
      split; [reflexivity|]. rewrite Hmax. lra.
    + rewrite lookup_insert_ne in Hl by congruence.
      destruct (Hst _ _ _ Hl) as (Hk & _). contradiction.
Qed.

Lemma non_decreasing_lookup (times : list Q) :
  forall (t0 : Q) (i j : nat) (ti tj : Q),
    non_decreasing_from t0 times -> (i <= j)%nat ->
    times !! i = Some ti -> times !! j = Some tj ->
    t0 <= ti /\ ti <= tj.
Proof.
  induction times as [|t rest IH]; intros t0 i j ti tj Hnd Hij Hi Hj;
    [discriminate|].
  destruct Hnd as [H0 Hrest].
  destruct i as [|i].
  - injection Hi as <-. split; [exact H0|].
    destruct j as [|j]; [injection Hj as <-; lra|].
    destruct (IH t j j tj tj Hrest (Nat.le_refl _) Hj Hj) as [Hle _]. exact Hle.
  - destruct j as [|j]; [lia|].
    destruct (IH t i j ti tj Hrest ltac:(lia) Hi Hj) as [Hle1 Hle2].
    split; [lra | exact Hle2].
Qed.

Lemma limiter_trace_inv (times : list Q) :
  forall (t0 : Q) (self : RateLimiter.t),
    bucket_ok self ->
    (forall tokens last_update,
        RateLimiter.state self !! "global"%string = Some (tokens, last_update) ->
        last_update <= t0) ->
    non_decreasing_from t0 times ->
    forall (n : nat) (self' : RateLimiter.t),
      limiter_trace times self !! n = Some self' ->
      bucket_ok self'
      /\ exists tokens now,
           RateLimiter.state self' !! "global"%string = Some (tokens, now)
           /\ times !! n = Some now.
Proof.
  induction times as [|t rest IH]; intros t0 self Hok Hclock Hnd n self' Hn;
    [discriminate|].
  destruct Hnd as [H0 Hrest].
  assert (Hnow : forall tokens lu,
             RateLimiter.state self !! "global"%string = Some (tokens, lu) -> lu <= t).
  { intros tokens lu Hl. specialize (Hclock _ _ Hl). lra. }
  destruct (is_allowed_step t self Hok Hnow) as (Hok' & tok & Hg').
  destruct n as [|n]; cbn in Hn.
  - injection Hn as <-. split; [exact Hok'|]. exists tok, t. split; [exact Hg' | reflexivity].
  - apply (IH t (snd (RateLimiter.is_allowed t self)) Hok'); [|exact Hrest|exact Hn].
    intros tokens lu Hl. rewrite Hg' in Hl. injection Hl as _ <-. lra.
Qed.

(** C8, as the code has it: when the limiter is created with a
    requests-per-minute setting that is not negative and the clock readings
    of its calls never go back, then after every call the only bucket is the
    one of the key ["global"], its tokens are in [0, 120], its [last_update]
    is the clock reading of that call, and [last_update] never decreases
    from one call to a later one. *)
Theorem C8_bucket_invariant (requests_per_minute : Z) (times : list Q) :
  (0 <= requests_per_minute)%Z ->
  clock_non_decreasing times ->
  (forall (n : nat) (self : RateLimiter.t) (key : string) (tokens last_update : Q),
      limiter_trace times (RateLimiter.init requests_per_minute) !! n = Some self ->
      RateLimiter.state self !! key = Some (tokens, last_update) ->
      key = "global"%string /\ 0 <= tokens /\ tokens <= 120
      /\ times !! n = Some last_update)
  /\ (forall (i j : nat) (si sj : RateLimiter.t) (ti tj ui uj : Q),
         (i <= j)%nat ->
         limiter_trace times (RateLimiter.init requests_per_minute) !! i = Some si ->
         limiter_trace times (RateLimiter.init requests_per_minute) !! j = Some sj ->
         RateLimiter.state si !! "global"%string = Some (ti, ui) ->
         RateLimiter.state sj !! "global"%string = Some (tj, uj) ->
         ui <= uj).
Proof.
  intros Hrpm Hclock.
  assert (Hnd : exists t0, non_decreasing_from t0 times).
  { destruct times as [|t rest]; [exists 0; exact I|].
    exists t. split; [lra | exact Hclock]. }
  destruct Hnd as [t0 Hnd].
  assert (Hinv : forall n self,
             limiter_trace times (RateLimiter.init requests_per_minute) !! n = Some self ->
             bucket_ok self
             /\ exists tokens now,
                  RateLimiter.state self !! "global"%string = Some (tokens, now)
                  /\ times !! n = Some now).
  { apply (limiter_trace_inv times t0); [apply init_bucket_ok; exact Hrpm| |exact Hnd].
    intros tokens lu Hl. cbn in Hl. rewrite lookup_empty in Hl. discriminate. }
  split.
  - intros n self key tokens lu Hn Hl.
    destruct (Hinv n self Hn) as ((_ & _ & Hst) & tok & now & Hg & Ht).
    destruct (Hst _ _ _ Hl) as (-> & Hlo & Hhi).
    rewrite Hg in Hl. injection Hl as -> ->. tauto.
  - intros i j si sj ti tj ui uj Hij Hi Hj Hgi Hgj.
    destruct (Hinv i si Hi) as (_ & tok & now & Hg & Ht).
    rewrite Hgi in Hg. injection Hg as _ <-.
    destruct (Hinv j sj Hj) as (_ & tok' & now' & Hg' & Ht').
    rewrite Hgj in Hg'. injection Hg' as _ <-.
    destruct (non_decreasing_lookup times t0 i j ui uj Hnd Hij Ht Ht') as [_ Hle].
    exact Hle.
Qed.

End RateLimiterProps.

(** C8, as stated, fails: when the clock goes back between two calls, the
    bucket is left with a negative number of tokens and an earlier
    [last_update]. *)
Lemma C8_fails_when_clock_goes_back :
  map (fun s => RateLimiter.state s !! "global"%string)
    (limiter_trace [100%Q; 0%Q] (RateLimiter.init 100))
  = [Some (119%Q, 100%Q); Some ((-2860 # 60)%Q, 0%Q)]
  /\ (-2860 # 60 < 0)%Q
  /\ (0 < 100)%Q.
Proof. vm_compute. repeat split. Qed.

(** A negative requests-per-minute setting drains the bucket below 0 even
    on a clock that never goes back. *)
Example negative_rate_drains_bucket :
  map (fun s => RateLimiter.state s !! "global"%string)
    (limiter_trace [0%Q; 60%Q] (RateLimiter.init (-600)))
  = [Some (119%Q, 0%Q); Some ((-28860 # 60)%Q, 60%Q)].
Proof. vm_compute. reflexivity. Qed.

(** C8 on three calls at clock readings 0, 1, 1 *)
Lemma C8_bucket_invariant_witness :
  exists (self : RateLimiter.t) (tokens : Q),
    limiter_trace [0%Q; 1%Q; 1%Q] (RateLimiter.init 100) !! 2%nat = Some self
    /\ RateLimiter.state self !! "global"%string = Some (tokens, 1%Q)
    /\ (0 <= tokens)%Q /\ (tokens <= 120)%Q.
Proof.
  assert (Hclock : clock_non_decreasing [0%Q; 1%Q; 1%Q]).
  { repeat split; apply Qle_bool_iff; reflexivity. }
  destruct (C8_bucket_invariant 100 [0%Q; 1%Q; 1%Q] ltac:(lia) Hclock) as [Hb _].
  destruct (limiter_trace [0%Q; 1%Q; 1%Q] (RateLimiter.init 100) !! 2%nat)
    as [self|] eqn:Hs; [|vm_compute in Hs; discriminate].
  destruct (RateLimiter.state self !! "global"%string) as [[tokens lu]|] eqn:Hg.
  - destruct (Hb 2%nat self "global"%string tokens lu Hs Hg)
      as (_ & Hlo & Hhi & Ht).
    injection Ht as <-. exists self, tokens.
    split; [reflexivity|]. repeat split; assumption.
  - vm_compute in Hs. injection Hs as <-. vm_compute in Hg. discriminate.
Defined.

(** ** Replay suppression *)

Ltac app_simpl :=
  cbn [Main.metrics Main.rate_limiter Main.replay_cache Main.score_repo
       Main.set_metrics Main.set_rate_limiter Main.set_replay_cache
       Main.set_score_repo ReplayCache.seen ReplayCache.jti_timestamps
       fst snd negb] in *.

Section ReplayProps.
Context {R : Type} `{Repositories.ScoreRepository R}.
Variable settings : Settings.
Variable jwt_decode : string -> JWTValidator.DecodeOutcome.
Variable api_get : PyVal -> Result (option Z).
Variable sha256_hexdigest : string -> string.

Local Abbreviation validate_token :=
  (Main.validate_token settings jwt_decode api_get sha256_hexdigest).
Local Abbreviation serve := (Main.serve settings jwt_decode api_get sha256_hexdigest).
Local Abbreviation admits := (passes_replay_check settings jwt_decode).
Local Abbreviation admitted :=
  (admitted_keys settings jwt_decode api_get sha256_hexdigest).


Lemma cleanup_no_timestamps (now : Q) (rc : ReplayCache.t) :
  ReplayCache.jti_timestamps rc = ∅ ->
  ReplayCache._cleanup_expired now rc = (Ok tt, rc).
Proof.
  intros Hts. unfold ReplayCache._cleanup_expired, modify.
  destruct rc as [sn ts]. cbn in *. subst ts.
  rewrite map_filter_empty, dom_empty_L, difference_empty_L, map_difference_empty.
  reflexivity.
Qed.

Lemma is_replayed_clean (now : Q) (jti : PyVal) (rc : ReplayCache.t) :
  ReplayCache.jti_timestamps rc = ∅ ->
  ReplayCache.is_replayed now jti rc
  = (if negb (truthy jti) then Ok true
     else match py_hash jti with
          | Ok k => Ok (bool_decide (k ∈ ReplayCache.seen rc))
          | Raise e => Raise e
          end, rc).
Proof.
  intros Hts. unfold ReplayCache.is_replayed.
  destruct (negb (truthy jti)); [reflexivity|].
  unfold_monad.
  destruct (size (ReplayCache.seen rc) mod 100 =? 0)%nat;
    [rewrite (cleanup_no_timestamps _ _ Hts)|];
    destruct (py_hash jti); reflexivity.
Qed.

Lemma record_no_exp (jti : PyVal) (rc : ReplayCache.t) :
  ReplayCache.record jti None rc
  = if truthy jti then
      match py_hash jti with
      | Ok k => (Ok tt, {| ReplayCache.seen := {[k]} ∪ ReplayCache.seen rc;
                          ReplayCache.jti_timestamps := ReplayCache.jti_timestamps rc |})
      | Raise e => (Raise e, rc)
      end
    else (Ok tt, rc).
Proof.
  unfold ReplayCache.record. destruct (truthy jti); [|reflexivity].
  unfold_monad. destruct (py_hash jti); reflexivity.
Qed.

(** One request, on a cache without expirations: the cache gains the [jti]
    of the request when it is admitted past the replay check, and is left as
    it was otherwise. *)
Lemma validate_token_replay_cache (req : Main.Request) (a : Main.App R) :
  ReplayCache.jti_timestamps (Main.replay_cache a) = ∅ ->
  Main.replay_cache (snd (validate_token req a))
  = match admits req a with
    | Some k => {| ReplayCache.seen := {[k]} ∪ ReplayCache.seen (Main.replay_cache a);
                   ReplayCache.jti_timestamps := ∅ |}
    | None => Main.replay_cache a
    end.
Proof.
  intros Hts.
  unfold passes_replay_check, Main.validate_token, Main.validate_body,
    Main.validate_except.
  unfold_monad. unfold Main.incr, modify, Main.emit, ret. app_simpl.
  destruct (RateLimiter.is_allowed _ _) as [[[|]|e] rl']; app_simpl;
    try (destruct (telemetry_emit_enabled settings); reflexivity).
  destruct (JWTValidator.validate_token _ _ _) as [p|e]; app_simpl;
    try (destruct (telemetry_emit_enabled settings); reflexivity).
  destruct (p !! "error"%string) as [err|]; app_simpl.
  { destruct (Main.reason_map_get err); app_simpl;
      try (destruct (telemetry_emit_enabled settings)); reflexivity. }
  rewrite (is_replayed_clean _ _ _ Hts).
  destruct (truthy (dict_get p "jti")) eqn:Etr; app_simpl; [|reflexivity].
  destruct (py_hash (dict_get p "jti")) as [k|e] eqn:Eh; app_simpl;
    try (destruct (telemetry_emit_enabled settings); reflexivity).
  destruct (bool_decide (k ∈ ReplayCache.seen (Main.replay_cache a))); app_simpl;
    [reflexivity|].
  rewrite record_no_exp, Etr, Eh. app_simpl.
  repeat (break_inner; inv_pair; subst; try discriminate); app_simpl;
    rewrite Hts; reflexivity.
Qed.

Lemma serve_cons (req : Main.Request) (rest : list Main.Request) (a : Main.App R) :
  snd (serve (req :: rest) a) = snd (serve rest (snd (validate_token req a))).
Proof.
  cbn [Main.serve]. destruct (validate_token req a) as [r a'].
  cbn [snd]. destruct (serve rest a') as [rs a'']. reflexivity.
Qed.

(** Serving requests keeps the cache without expirations, and the set of
    seen [jti]s grows by exactly the admitted ones. *)
Lemma serve_replay_cache (reqs : list Main.Request) :
  forall a : Main.App R,
    ReplayCache.jti_timestamps (Main.replay_cache a) = ∅ ->
    ReplayCache.jti_timestamps (Main.replay_cache (snd (serve reqs a))) = ∅
    /\ forall k,
         k ∈ ReplayCache.seen (Main.replay_cache (snd (serve reqs a)))
         <-> k ∈ ReplayCache.seen (Main.replay_cache a) \/ k ∈ admitted reqs a.
Proof.
  induction reqs as [|req rest IH]; intros a Hts.
  - cbn. split; [exact Hts|]. intros k. rewrite elem_of_nil. tauto.
  - rewrite serve_cons. cbn [admitted_keys].
    pose proof (validate_token_replay_cache req a Hts) as Hstep.
    assert (Hts' : ReplayCache.jti_timestamps
                     (Main.replay_cache (snd (validate_token req a))) = ∅).
    { rewrite Hstep. destruct (admits req a); [reflexivity | exact Hts]. }
    destruct (IH _ Hts') as [Hclean Hseen].
    split; [exact Hclean|].
    intros k. rewrite Hseen, Hstep, elem_of_app.
    destruct (admits req a) as [k'|]; cbn [ReplayCache.seen].
    + rewrite elem_of_union, elem_of_singleton, list_elem_of_singleton. tauto.
    + rewrite elem_of_nil. tauto.
Qed.




End ReplayProps.




(** * Further properties of the code *)

(** ** Rate limiter: burst, refill and admission bound *)

Ltac limiter_simpl :=
  cbn [RateLimiter.state RateLimiter.set_state RateLimiter.max_tokens
       RateLimiter.refill_rate snd fst].

Section RateLimiterMore.
Local Open Scope Q_scope.

(** The call on an existing bucket, spelled out *)
Lemma is_allowed_some (now tokens last_update : Q) (self : RateLimiter.t) :
  RateLimiter.state self !! "global"%string = Some (tokens, last_update) ->
  RateLimiter.is_allowed now self
  = let filled := Qmin (RateLimiter.max_tokens self)
                    (tokens + (now - last_update) * RateLimiter.refill_rate self) in
    if Qltb filled 1
    then (Ok false,
          RateLimiter.set_state
            (<["global"%string := (filled, now)]> (RateLimiter.state self)) self)
    else (Ok true,
          RateLimiter.set_state
            (<["global"%string := (filled - 1, now)]> (RateLimiter.state self)) self).
Proof.
  intros Hg. unfold RateLimiter.is_allowed. unfold_monad. rewrite Hg. cbv zeta.
  destruct (Qltb _ 1); reflexivity.
Qed.

Lemma is_allowed_none (now : Q) (self : RateLimiter.t) :
  RateLimiter.state self !! "global"%string = None ->
  RateLimiter.is_allowed now self
  = (Ok true,
     RateLimiter.set_state
       (<["global"%string := (RateLimiter.max_tokens self - 1, now)]>
          (RateLimiter.state self)) self).
Proof.
  intros Hg. unfold RateLimiter.is_allowed. unfold_monad. rewrite Hg. reflexivity.
Qed.





End RateLimiterMore.

Section RateLimiterBurst.
Local Open Scope Q_scope.

(** Calls at one instant [t] on a bucket that holds [c] whole tokens *)
Lemma same_instant_from (t : Q) (n : nat) :
  forall (self : RateLimiter.t) (tokens : Q) (c : nat),
    RateLimiter.max_tokens self = 120 ->
    RateLimiter.state self !! "global"%string = Some (tokens, t) ->
    tokens == inject_Z (Z.of_nat c) ->
    (c <= 119)%nat ->
    limiter_answers (replicate n t) self
    = replicate (Nat.min n c) (Ok true) ++ replicate (n - c) (Ok false).
Proof.
  induction n as [|n IH]; intros self tokens c Hmax Hg Htok Hc; [reflexivity|].
  cbn [replicate limiter_answers].
  rewrite (is_allowed_some _ _ _ _ Hg). cbv zeta. rewrite Hmax.
  assert (Hc' : inject_Z (Z.of_nat c) <= 119).
  { change 119 with (inject_Z 119). rewrite <- Zle_Qle. lia. }
  assert (Hfill : Qmin 120 (tokens + (t - t) * RateLimiter.refill_rate self) == tokens).
  { rewrite Q.min_r; lra. }
  destruct (Qltb _ 1) eqn:Hlt; cbv beta iota.
  - apply Qltb_true in Hlt.
    assert (c = 0)%nat as ->.
    { destruct c as [|c]; [reflexivity|]. exfalso.
      assert (1 <= inject_Z (Z.of_nat (S c))).
      { change 1 with (inject_Z 1). rewrite <- Zle_Qle. lia. }
      lra. }
    match goal with
    | |- context [limiter_answers _ ?s] =>
        rewrite (IH s _ 0%nat Hmax (lookup_insert_eq _ _ _));
          [|rewrite Hfill; exact Htok | lia]
    end.
    rewrite Nat.min_0_r, Nat.sub_0_r. reflexivity.
  - apply Qltb_false in Hlt.
    destruct c as [|c].
    { exfalso. change (inject_Z (Z.of_nat 0)) with 0 in Htok. lra. }
    match goal with
    | |- context [limiter_answers _ ?s] =>
        rewrite (IH s _ c Hmax (lookup_insert_eq _ _ _)); [reflexivity| |lia]
    end.
    rewrite Hfill, Htok, Nat2Z.inj_succ. unfold Z.succ.
    rewrite inject_Z_plus. change (inject_Z 1) with 1. lra.
Qed.

(** X3: whatever the requests-per-minute setting is, of [n] calls made at
    one instant to a new limiter, the first 120 are admitted and all the
    others are refused: the burst capacity is the constant 120. *)
Theorem limiter_burst_is_120 (requests_per_minute : Z) (t : Q) (n : nat) :
  limiter_answers (replicate n t) (RateLimiter.init requests_per_minute)
  = replicate (Nat.min n 120) (Ok true) ++ replicate (n - 120) (Ok false).
Proof.
  destruct n as [|n]; [reflexivity|].
  cbn [replicate limiter_answers].
  rewrite (is_allowed_none t (RateLimiter.init requests_per_minute) (lookup_empty _)).
  cbv beta iota.
  match goal with
  | |- context [limiter_answers _ ?s] =>
      rewrite (same_instant_from t n s _ 119%nat eq_refl (lookup_insert_eq _ _ _));
        [|limiter_simpl; cbn [RateLimiter.init RateLimiter.max_tokens];
          change (inject_Z (Z.of_nat 119)) with 119; lra | lia]
  end.
  replace (Nat.min (S n) 120) with (S (Nat.min n 119)) by lia.
  replace (S n - 120)%nat with (n - 119)%nat by lia.
  reflexivity.
Qed.

End RateLimiterBurst.



(** ** Replay cache: expirations and clean-up *)

Section ReplayCacheMore.

(** [is_replayed] on a value that is true and hashable, spelled out *)
Lemma is_replayed_truthy (now : Q) (jti : PyVal) (k : PyKey) (rc : ReplayCache.t) :
  truthy jti = true ->
  py_hash jti = Ok k ->
  ReplayCache.is_replayed now jti rc
  = let rc' :=
      if (size (ReplayCache.seen rc) mod 100 =? 0)%nat
      then snd (ReplayCache._cleanup_expired now rc) else rc in
    (Ok (bool_decide (k ∈ ReplayCache.seen rc')), rc').
Proof.
  intros Htr Hh. unfold ReplayCache.is_replayed. rewrite Htr. cbn [negb].
  unfold_monad. rewrite Hh.
  destruct (size (ReplayCache.seen rc) mod 100 =? 0)%nat; reflexivity.
Qed.

Lemma cleanup_seen (now : Q) (rc : ReplayCache.t) (k : PyKey) :
  k ∈ ReplayCache.seen (snd (ReplayCache._cleanup_expired now rc))
  <-> k ∈ ReplayCache.seen rc
      /\ forall e, ReplayCache.jti_timestamps rc !! k = Some e ->
                   Qltb (inject_Z e) now = false.
Proof.
  unfold ReplayCache._cleanup_expired, modify. cbn [snd ReplayCache.seen].
  rewrite elem_of_difference, elem_of_dom. split.
  - intros [Hin Hno]. split; [exact Hin|]. intros e He.
    destruct (Qltb (inject_Z e) now) eqn:Hlt; [|reflexivity].
    exfalso. apply Hno. exists e. apply map_lookup_filter_Some. split; assumption.
  - intros [Hin Hkeep]. split; [exact Hin|]. intros [e He].
    apply map_lookup_filter_Some in He as [He Hlt]. cbn in Hlt.
    rewrite (Hkeep e He) in Hlt. discriminate.
Qed.

Lemma cleanup_timestamps (now : Q) (rc : ReplayCache.t) (k : PyKey) :
  ReplayCache.jti_timestamps (snd (ReplayCache._cleanup_expired now rc)) !! k
  = match ReplayCache.jti_timestamps rc !! k with
    | Some e => if Qltb (inject_Z e) now then None else Some e
    | None => None
    end.
Proof.
  unfold ReplayCache._cleanup_expired, modify. cbn [snd ReplayCache.jti_timestamps].
  destruct (ReplayCache.jti_timestamps rc !! k) as [e|] eqn:He.
  - destruct (Qltb (inject_Z e) now) eqn:Hlt.
    + apply lookup_difference_None. right. exists e.
      apply map_lookup_filter_Some. split; assumption.
    + apply lookup_difference_Some. split; [exact He|].
      apply map_lookup_filter_None. right. intros e' He'. cbn.
      rewrite He in He'. injection He' as <-. congruence.
  - apply lookup_difference_None. left. exact He.
Qed.

(** X4: the clean-up removes from the cache exactly the entries whose
    expiration is before [now]: an entry without expiration, or with an
    expiration of [now] or later, stays in [seen] and keeps its expiration. *)
Theorem cleanup_removes_exactly_expired (now : Q) (rc : ReplayCache.t) (k : PyKey) :
  let rc' := snd (ReplayCache._cleanup_expired now rc) in
  (k ∈ ReplayCache.seen rc'
   <-> k ∈ ReplayCache.seen rc
       /\ ~ exists e, ReplayCache.jti_timestamps rc !! k = Some e
                      /\ (inject_Z e < now)%Q)
  /\ (forall e, ReplayCache.jti_timestamps rc' !! k = Some e
                <-> ReplayCache.jti_timestamps rc !! k = Some e
                    /\ (now <= inject_Z e)%Q)
  /\ fst (ReplayCache._cleanup_expired now rc) = Ok tt.
Proof.
  cbv zeta. split; [|split; [|reflexivity]].
  - rewrite cleanup_seen. split; intros [Hin Hk]; (split; [exact Hin|]).
    + intros (e & He & Hlt). apply Qltb_true in Hlt.
      rewrite (Hk e He) in Hlt. discriminate.
    + intros e He. destruct (Qltb (inject_Z e) now) eqn:Hlt; [|reflexivity].
      exfalso. apply Hk. exists e. split; [exact He | apply Qltb_true; exact Hlt].
  - intros e. rewrite cleanup_timestamps.
    destruct (ReplayCache.jti_timestamps rc !! k) as [e'|]; [|split; [discriminate | intros [[=] _]]].
    destruct (Qltb (inject_Z e') now) eqn:Hlt.
    + apply Qltb_true in Hlt. split; [discriminate|].
      intros [[= ->] Hle]. exfalso. apply (Qlt_not_le _ _ Hlt Hle).
    + apply Qltb_false in Hlt. split.
      * intros [= ->]. split; [reflexivity | exact Hlt].
      * intros [Heq _]. exact Heq.
Qed.

(** X5: every operation of the cache keeps the expirations within the seen
    set, whether it returns or raises. *)
Theorem replay_cache_keeps_timestamps_of_seen (rc : ReplayCache.t) :
  timestamps_of_seen rc ->
  (forall now, timestamps_of_seen (snd (ReplayCache._cleanup_expired now rc)))
  /\ (forall now jti, timestamps_of_seen (snd (ReplayCache.is_replayed now jti rc)))
  /\ (forall jti exp, timestamps_of_seen (snd (ReplayCache.record jti exp rc))).
Proof.
  intros Hinv.
  assert (Hclean : forall now,
             timestamps_of_seen (snd (ReplayCache._cleanup_expired now rc))).
  { intros now k Hk. apply elem_of_dom in Hk as [e He].
    rewrite cleanup_timestamps in He.
    destruct (ReplayCache.jti_timestamps rc !! k) as [e'|] eqn:He'; [|discriminate].
    destruct (Qltb (inject_Z e') now) eqn:Hlt; [discriminate|].
    apply cleanup_seen. split.
    - apply Hinv, elem_of_dom. eauto.
    - intros e2 He2. congruence. }
  split; [exact Hclean|]. split.
  - intros now jti. unfold ReplayCache.is_replayed.
    destruct (negb (truthy jti)); [exact Hinv|]. unfold_monad.
    destruct (size (ReplayCache.seen rc) mod 100 =? 0)%nat.
    + specialize (Hclean now).
      destruct (ReplayCache._cleanup_expired now rc) as [[[]|e] rc'] eqn:Hc;
        [|discriminate Hc].
      destruct (py_hash jti); exact Hclean.
    + destruct (py_hash jti); exact Hinv.
  - intros jti exp. unfold ReplayCache.record.
    destruct (truthy jti); [|exact Hinv]. unfold_monad.
    destruct (py_hash jti) as [k|e]; [|exact Hinv].
    clear Hclean.
    destruct exp as [e|]; [destruct (negb (e =? 0))|]; cbn;
      unfold timestamps_of_seen in *; cbn;
      try rewrite dom_insert_L; set_solver.
Qed.

(** X6: for a value that is true, hashable and in the seen set,
    [is_replayed] answers [False] only when its entry has an expiration
    before [now] and the number of seen entries is a multiple of 100, the
    only moment the clean-up runs; in every other case it answers [True],
    also for an entry that has expired. *)
Theorem is_replayed_of_seen (now : Q) (jti : PyVal) (k : PyKey) (rc : ReplayCache.t) :
  truthy jti = true ->
  py_hash jti = Ok k ->
  k ∈ ReplayCache.seen rc ->
  fst (ReplayCache.is_replayed now jti rc)
  = Ok (negb ((size (ReplayCache.seen rc) mod 100 =? 0)%nat
              && match ReplayCache.jti_timestamps rc !! k with
                 | Some e => Qltb (inject_Z e) now
                 | None => false
                 end)).
Proof.
  intros Htr Hh Hin. rewrite (is_replayed_truthy _ _ _ _ Htr Hh). cbv zeta.
  cbn [fst]. f_equal.
  destruct (size (ReplayCache.seen rc) mod 100 =? 0)%nat; cbn [andb negb].
  - destruct (ReplayCache.jti_timestamps rc !! k) as [e|] eqn:He.
    + destruct (Qltb (inject_Z e) now) eqn:Hlt; cbn [negb].
      * apply bool_decide_eq_false_2. rewrite cleanup_seen.
        intros [_ Hk]. rewrite (Hk e He) in Hlt. discriminate.
      * apply bool_decide_eq_true_2, cleanup_seen. split; [exact Hin|].
        intros e' He'. congruence.
    + apply bool_decide_eq_true_2, cleanup_seen. split; [exact Hin|].
      intros e' He'. congruence.
  - apply bool_decide_eq_true_2. exact Hin.
Qed.

(** X7: recording and asking: once [record jti exp] has returned for a
    value that is true and hashable, [is_replayed] answers [True] for it at
    every clock reading up to the expiration [exp], and for every clock
    reading when the entry has no expiration at all. *)
Theorem record_then_is_replayed (now : Q) (jti : PyVal) (k : PyKey)
  (exp : option Z) (rc : ReplayCache.t) :
  truthy jti = true ->
  py_hash jti = Ok k ->
  match exp with
  | Some e => e <> 0 /\ (now <= inject_Z e)%Q
  | None => ReplayCache.jti_timestamps rc !! k = None
  end ->
  fst (ReplayCache.record jti exp rc) = Ok tt
  /\ fst (ReplayCache.is_replayed now jti (snd (ReplayCache.record jti exp rc)))
     = Ok true.
Proof.
  intros Htr Hh Hexp.
  assert (Hrec : ReplayCache.record jti exp rc
                 = (Ok tt,
                    {| ReplayCache.seen := {[k]} ∪ ReplayCache.seen rc;
                       ReplayCache.jti_timestamps :=
                         match exp with
                         | Some e => <[k := e]> (ReplayCache.jti_timestamps rc)
                         | None => ReplayCache.jti_timestamps rc
                         end |})).
  { unfold ReplayCache.record. rewrite Htr. unfold_monad. rewrite Hh.
    destruct exp as [e|]; [|reflexivity].
    destruct Hexp as [Hne _]. apply Z.eqb_neq in Hne. rewrite Hne. reflexivity. }
  rewrite Hrec. split; [reflexivity|]. cbn [snd].
  rewrite (is_replayed_truthy _ _ _ _ Htr Hh). cbv zeta. cbn [fst]. f_equal.
  apply bool_decide_eq_true_2.
  destruct (size _ mod 100 =? 0)%nat; [|cbn; set_solver].
  apply cleanup_seen. cbn [ReplayCache.seen ReplayCache.jti_timestamps].
  split; [set_solver|].
  intros e He. destruct exp as [e0|].
  - rewrite lookup_insert_eq in He. injection He as <-.
    apply Qltb_false. tauto.
  - congruence.
Qed.

End ReplayCacheMore.

(** X5 on a cache that holds one entry with an expiration *)
Lemma replay_cache_keeps_timestamps_of_seen_witness :
  timestamps_of_seen
    (snd (ReplayCache._cleanup_expired 10
            {| ReplayCache.seen := {[KStr "a"]};
               ReplayCache.jti_timestamps := {[KStr "a" := 5]} |})).
Proof.
  refine (proj1 (replay_cache_keeps_timestamps_of_seen
                   {| ReplayCache.seen := {[KStr "a"]};
                      ReplayCache.jti_timestamps := {[KStr "a" := 5]} |} _) 10%Q).
  unfold timestamps_of_seen. cbn. rewrite dom_singleton_L. set_solver.
Defined.

(** X6 on a cache of one entry that expired at 5: at clock reading 10 the
    entry is still answered as a replay, the size 1 being no multiple of
    100. *)
Lemma is_replayed_of_seen_witness :
  fst (ReplayCache.is_replayed 10 (VStr "a")
         {| ReplayCache.seen := {[KStr "a"]};
            ReplayCache.jti_timestamps := {[KStr "a" := 5]} |})
  = Ok true.
Proof.
  refine (eq_trans
            (is_replayed_of_seen 10 (VStr "a") (KStr "a")
               {| ReplayCache.seen := {[KStr "a"]};
                  ReplayCache.jti_timestamps := {[KStr "a" := 5]} |}
               eq_refl eq_refl _) _).
  - cbn. set_solver.
  - vm_compute. reflexivity.
Defined.

(** X7 on a new cache: recorded with expiration 100, asked at 50 *)
Lemma record_then_is_replayed_witness :
  fst (ReplayCache.record (VStr "a") (Some 100) ReplayCache.init) = Ok tt
  /\ fst (ReplayCache.is_replayed 50 (VStr "a")
            (snd (ReplayCache.record (VStr "a") (Some 100) ReplayCache.init)))
     = Ok true.
Proof.
  apply (record_then_is_replayed 50 (VStr "a") (KStr "a") (Some 100) ReplayCache.init
           eq_refl eq_refl).
  split; [discriminate | apply Qle_bool_iff; reflexivity].
Defined.

(** ** Credential verifier: outcomes *)

Section JWTValidatorMore.
Import JWTValidator.

Lemma py_int_le (x y : Q) : (x <= y)%Q -> py_int x <= py_int y.
Proof.
  unfold Qle, py_int. destruct x as [a b], y as [c d]. cbn [Qnum Qden]. intros Hle.
  destruct (Z_le_gt_dec 0 a) as [Ha0|Ha0].
  - assert (0 <= c) by nia.
    rewrite !Z.quot_div_nonneg by lia.
    apply Z.div_le_lower_bound; [lia|].
    pose proof (Z.mul_div_le a (Z.pos b) ltac:(lia)).
    nia.
  - destruct (Z_le_gt_dec 0 c) as [Hc0|Hc0].
    + assert (a ÷ Z.pos b <= 0).
      { replace a with (- (- a)) by lia. rewrite Z.quot_opp_l by lia.
        pose proof (Z.quot_pos (- a) (Z.pos b) ltac:(lia) ltac:(lia)). lia. }
      pose proof (Z.quot_pos c (Z.pos d) ltac:(lia) ltac:(lia)).
      lia.
    + replace a with (- (- a)) by lia. replace c with (- (- c)) by lia.
      rewrite (Z.quot_opp_l (- a)), (Z.quot_opp_l (- c)) by lia.
      rewrite !Z.quot_div_nonneg by lia.
      apply -> Z.opp_le_mono.
      apply Z.div_le_lower_bound; [lia|].
      pose proof (Z.mul_div_le (- c) (Z.pos d) ltac:(lia)).
      nia.
Qed.

Lemma py_int_inject_Z (n : Z) : py_int (inject_Z n) = n.
Proof. unfold py_int. cbn. apply Z.quot_1_r. Qed.

Lemma error_dict_lookup (kind : string) :
  error_dict kind !! "error"%string = Some (VStr kind).
Proof. apply lookup_singleton_eq. Qed.

Lemma error_dict_no_claims (kind key : string) :
  key <> "error"%string -> error_dict kind !! key = None.
Proof. intros Hne. apply lookup_singleton_ne. congruence. Qed.

Lemma error_dict_inj (k1 k2 : string) : error_dict k1 = error_dict k2 -> k1 = k2.
Proof.
  intros Heq. apply (f_equal (fun m : gmap string PyVal => m !! "error"%string)) in Heq.
  rewrite !error_dict_lookup in Heq. congruence.
Qed.

Lemma Ok_error_dict_inj (k1 k2 : string) :
  Ok (error_dict k1) = Ok (error_dict k2) -> k1 = k2.
Proof.
  intros Heq. apply error_dict_inj.
  exact (f_equal (fun r => match r with Ok d => d | Raise _ => error_dict k1 end) Heq).
Qed.

Lemma py_add_int_raises (v : PyVal) (n : Z) :
  v <> VNone ->
  ((exists e, py_add_int v n = Raise e) <-> is_text_or_container v).
Proof.
  intros Hv. destruct v; cbn; split; try tauto; try (intros [e He]; discriminate);
    eauto.
Qed.

Lemma py_sub_int_raises (v : PyVal) (n : Z) :
  v <> VNone ->
  ((exists e, py_sub_int v n = Raise e) <-> is_text_or_container v).
Proof.
  intros Hv. destruct v; cbn; split; try tauto; try (intros [e He]; discriminate);
    eauto.
Qed.

(** X8: what the verifier returns is either one of its four error
    dictionaries or the very payload that [jwt.decode] returned, unchanged;
    and it returns the payload only for a token that is not empty, whose
    payload passes the [exp] and [nbf] checks and has the keys [sub] and
    [jti]. *)
Theorem validate_token_returns_error_or_payload (self : JWTValidator.t)
  (time_now : Q) (token : string) (d : gmap string PyVal) :
  validate_token self time_now token = Ok d ->
  (exists kind, kind ∈ error_kinds /\ d = error_dict kind)
  \/ (token <> ""%string
      /\ jwt_decode self token = Decoded d
      /\ passes_temporal_checks self time_now d
      /\ is_Some (d !! "sub"%string) /\ is_Some (d !! "jti"%string)).
Proof.
  unfold validate_token, error_kinds.
  destruct (String.eqb token "") eqn:Etok.
  { intros [= <-]. left. eexists. split; [|reflexivity]. set_solver. }
  apply String.eqb_neq in Etok.
  destruct (jwt_decode self token) as [payload| | | |] eqn:Hdec;
    try (intros [= <-]; left; eexists; split; [|reflexivity]; set_solver).
  cbv zeta.
  destruct (bool_decide (dict_get payload "exp" = VNone)) eqn:Eexp;
    [intros [= <-]; left; eexists; split; [|reflexivity]; set_solver|].
  apply bool_decide_eq_false in Eexp.
  destruct (py_add_int (dict_get payload "exp") (clock_drift self))
    as [bound|e] eqn:Hb; cbn [rbind]; [|discriminate].
  destruct (bound <? py_int time_now) eqn:Elt;
    [intros [= <-]; left; eexists; split; [|reflexivity]; set_solver|].
  apply Z.ltb_ge in Elt.
  destruct (bool_decide (dict_get payload "nbf" = VNone)) eqn:Enbf; cbn [rbind].
  - apply bool_decide_eq_true in Enbf.
    destruct (bool_decide (payload !! "jti"%string = None)
              || bool_decide (payload !! "sub"%string = None)) eqn:Ekeys;
      [intros [= <-]; left; eexists; split; [|reflexivity]; set_solver|].
    intros [= <-]. right. apply orb_false_elim in Ekeys as [Ej Es].
    apply bool_decide_eq_false in Ej, Es.
    repeat split; try assumption.
    + eauto.
    + left. exact Enbf.
    + destruct (payload !! "sub"%string); [eauto | contradiction].
    + destruct (payload !! "jti"%string); [eauto | contradiction].
  - apply bool_decide_eq_false in Enbf.
    destruct (py_sub_int (dict_get payload "nbf") (clock_drift self))
      as [start|e] eqn:Hs; cbn [rbind]; [|discriminate].
    destruct (py_int time_now <? start) eqn:Est;
      [intros [= <-]; left; eexists; split; [|reflexivity]; set_solver|].
    apply Z.ltb_ge in Est.
    destruct (bool_decide (payload !! "jti"%string = None)
              || bool_decide (payload !! "sub"%string = None)) eqn:Ekeys;
      [intros [= <-]; left; eexists; split; [|reflexivity]; set_solver|].
    intros [= <-]. right. apply orb_false_elim in Ekeys as [Ej Es].
    apply bool_decide_eq_false in Ej, Es.
    repeat split; try assumption.
    + eauto.
    + right. eauto.
    + destruct (payload !! "sub"%string); [eauto | contradiction].
    + destruct (payload !! "jti"%string); [eauto | contradiction].
Qed.

(** X9: the verifier raises exactly when the signature verifies and the
    arithmetic of a temporal check is applied to a claim that is a string,
    a list or a dict: [exp], or, for a credential that has not expired,
    [nbf]; the exception is then a [TypeError]. *)
Theorem validate_token_raises_iff (self : JWTValidator.t) (time_now : Q)
  (token : string) :
  ((exists e, validate_token self time_now token = Raise e)
   <-> token <> ""%string
       /\ exists payload,
            jwt_decode self token = Decoded payload
            /\ (is_text_or_container (dict_get payload "exp")
                \/ (exists bound,
                       py_add_int (dict_get payload "exp") (clock_drift self) = Ok bound
                       /\ py_int time_now <= bound)
                   /\ is_text_or_container (dict_get payload "nbf")))
  /\ (forall e, validate_token self time_now token = Raise e -> e = TypeError).
Proof.
  unfold validate_token.
  destruct (String.eqb token "") eqn:Etok.
  { apply String.eqb_eq in Etok. split; [|discriminate].
    split; [intros [e He]; discriminate | intros [Hne _]; contradiction]. }
  apply String.eqb_neq in Etok.
  destruct (jwt_decode self token) as [payload| | | |] eqn:Hdec;
    try (split; [|discriminate];
         split; [intros [e He]; discriminate
                | intros (_ & p & Hp & _); discriminate]).
  cbv zeta.
  destruct (bool_decide (dict_get payload "exp" = VNone)) eqn:Eexp.
  { apply bool_decide_eq_true in Eexp. split; [|discriminate].
    split; [intros [e He]; discriminate|].
    intros (_ & p & [= <-] & [Hexp | ((b & Hb & _) & _)]).
    - rewrite Eexp in Hexp. destruct Hexp.
    - rewrite Eexp in Hb. discriminate. }
  apply bool_decide_eq_false in Eexp.
  destruct (py_add_int (dict_get payload "exp") (clock_drift self))
    as [bound|e0] eqn:Hb; cbn [rbind].
  2: { split.
       - split; [|eauto]. intros _. split; [exact Etok|]. exists payload.
         split; [reflexivity|]. left.
         apply (py_add_int_raises _ (clock_drift self) Eexp). eauto.
       - intros e [= <-]. destruct (dict_get payload "exp"); cbn in Hb; congruence. }
  assert (Hexp_num : ~ is_text_or_container (dict_get payload "exp")).
  { intros Hc. apply (py_add_int_raises _ (clock_drift self) Eexp) in Hc as [e He].
    congruence. }
  destruct (bound <? py_int time_now) eqn:Elt.
  { apply Z.ltb_lt in Elt. split; [|discriminate].
    split; [intros [e He]; discriminate|].
    intros (_ & p & [= <-] & [Hexp | ((b & Hb' & Hle) & _)]);
      [contradiction|]. rewrite Hb in Hb'. injection Hb' as <-. lia. }
  apply Z.ltb_ge in Elt.
  destruct (bool_decide (dict_get payload "nbf" = VNone)) eqn:Enbf; cbn [rbind].
  { apply bool_decide_eq_true in Enbf. split.
    - split.
      + intros [e He]. destruct (_ || _); discriminate.
      + intros (_ & p & [= <-] & [Hexp | (_ & Hnbf)]); [contradiction|].
        rewrite Enbf in Hnbf. destruct Hnbf.
    - intros e He. destruct (_ || _); discriminate. }
  apply bool_decide_eq_false in Enbf.
  destruct (py_sub_int (dict_get payload "nbf") (clock_drift self))
    as [start|e0] eqn:Hs; cbn [rbind].
  - split.
    + split.
      * intros [e He]. destruct (py_int time_now <? start); [discriminate|].
        destruct (_ || _); discriminate.
      * intros (_ & p & [= <-] & [Hexp | (_ & Hnbf)]); [contradiction|].
        apply (py_sub_int_raises _ (clock_drift self) Enbf) in Hnbf as [e He].
        congruence.
    + intros e He. destruct (py_int time_now <? start); [discriminate|].
      destruct (_ || _); discriminate.
  - split.
    + split; [|eauto]. intros _. split; [exact Etok|]. exists payload.
      split; [reflexivity|]. right. split; [eauto|].
      apply (py_sub_int_raises _ (clock_drift self) Enbf). eauto.
    + intros e [= <-]. destruct (dict_get payload "nbf"); cbn in Hs; congruence.
Qed.

(** X10: expiry is final: a credential whose signature verifies and that
    the verifier reports as expired at one clock reading is reported as
    expired at every later clock reading. *)
Theorem expired_stays_expired (self : JWTValidator.t) (t1 t2 : Q)
  (token : string) (payload : gmap string PyVal) :
  jwt_decode self token = Decoded payload ->
  validate_token self t1 token = Ok (error_dict "expired") ->
  (t1 <= t2)%Q ->
  validate_token self t2 token = Ok (error_dict "expired").
Proof.
  intros Hdec Hexp Hle. apply py_int_le in Hle.
  assert (Hne : token <> ""%string).
  { intros ->.
    change (validate_token self t1 "") with (Ok (error_dict "malformed")) in Hexp.
    apply Ok_error_dict_inj in Hexp. discriminate. }
  revert Hexp.
  rewrite (validate_token_decoded self t1 token payload Hne Hdec).
  rewrite (validate_token_decoded self t2 token payload Hne Hdec). cbv zeta.
  destruct (bool_decide (dict_get payload "exp" = VNone)).
  { intros Hm%Ok_error_dict_inj. discriminate. }
  destruct (py_add_int _ _) as [bound|e]; cbn [rbind]; [|discriminate].
  destruct (bound <? py_int t1) eqn:E1.
  { apply Z.ltb_lt in E1. intros _.
    replace (bound <? py_int t2) with true by (symmetry; apply Z.ltb_lt; lia).
    reflexivity. }
  destruct (if bool_decide (dict_get payload "nbf" = VNone) then Ok false
            else rbind (py_sub_int (dict_get payload "nbf") (clock_drift self))
                   (fun start => Ok (py_int t1 <? start))) as [[|]|e];
    cbn [rbind]; try discriminate;
    try (intros Hm%Ok_error_dict_inj; discriminate).
  destruct (bool_decide (payload !! "jti"%string = None)
            || bool_decide (payload !! "sub"%string = None)) eqn:Ekeys.
  { intros Hm%Ok_error_dict_inj. discriminate. }
  intros [= Hm]. apply orb_false_elim in Ekeys as [Ej _].
  apply bool_decide_eq_false in Ej. exfalso. apply Ej. rewrite Hm.
  apply error_dict_no_claims. discriminate.
Qed.

End JWTValidatorMore.

(** X8 on the sample credential of [high_user] *)
Lemma validate_token_returns_error_or_payload_witness :
  (exists kind, kind ∈ error_kinds
                /\ Samples.payload_high = JWTValidator.error_dict kind)
  \/ ("high"%string <> ""%string
      /\ JWTValidator.jwt_decode Samples.sample_validator "high"
         = JWTValidator.Decoded Samples.payload_high
      /\ passes_temporal_checks Samples.sample_validator 1000 Samples.payload_high
      /\ is_Some (Samples.payload_high !! "sub"%string)
      /\ is_Some (Samples.payload_high !! "jti"%string)).
Proof.
  apply (validate_token_returns_error_or_payload Samples.sample_validator 1000 "high").
  vm_compute. reflexivity.
Defined.

(** X10 on the sample credential with [exp] = 2000 and a drift of 30: expired
    at 2031, hence at 5000 *)
Lemma expired_stays_expired_witness :
  JWTValidator.validate_token Samples.sample_validator 5000 "high"
  = Ok (JWTValidator.error_dict "expired").
Proof.
  apply (expired_stays_expired Samples.sample_validator 2031 5000 "high"
           Samples.payload_high eq_refl).
  - vm_compute. reflexivity.
  - apply Qle_bool_iff. reflexivity.
Defined.

(** ** Pipeline: what each outcome does to the gateway *)

Ltac main_unfold :=
  unfold Main.validate_token, Main.validate_body, Main.validate_except;
  unfold_monad; unfold Main.incr, modify, Main.emit, ret.

Section MainMore.
Context {R : Type} `{Repositories.ScoreRepository R}.
Variable settings : Settings.
Variable jwt_decode : string -> JWTValidator.DecodeOutcome.
Variable api_get : PyVal -> Result (option Z).
Variable sha256_hexdigest : string -> string.

Local Abbreviation handler :=
  (Main.validate_token settings jwt_decode api_get sha256_hexdigest).
Local Abbreviation verify :=
  (JWTValidator.validate_token (Main.jwt_validator settings jwt_decode)).

(** X11: when the verifier's result has an [error] key, whether it is one
    of the verifier's error dictionaries or a verified payload that carries a
    claim of that name, the request is denied with the reason the key's value
    maps to (INTERNAL_ERROR when it maps to none), without a score; the
    replay cache and the score repository are not touched, and [deny_count]
    alone goes up, by one. *)
Theorem error_key_is_denied (req : Main.Request) (a : Main.App R)
  (rl' : RateLimiter.t) (d : gmap string PyVal) (v : PyVal) :
  RateLimiter.is_allowed (Main.time_rate_limiter req) (Main.rate_limiter a)
  = (Ok true, rl') ->
  verify (Main.time_jwt_validator req) (Main.token req) = Ok d ->
  d !! "error"%string = Some v ->
  exists a',
    handler req a
    = (Ok (Main.deny req (match Main.reason_map_get v with
                          | Ok r => r
                          | Raise _ => INTERNAL_ERROR
                          end)), a')
    /\ Main.replay_cache a' = Main.replay_cache a
    /\ Main.score_repo a' = Main.score_repo a
    /\ Main.rate_limiter a' = rl'
    /\ Main.deny_count (Main.metrics a') = Main.deny_count (Main.metrics a) + 1
    /\ Main.allow_count (Main.metrics a') = Main.allow_count (Main.metrics a)
    /\ Main.monitor_count (Main.metrics a') = Main.monitor_count (Main.metrics a)
    /\ Main.reason_map_get (VStr "expired") = Ok EXPIRED_TOKEN
    /\ Main.reason_map_get (VStr "not_yet_valid") = Ok NOT_YET_VALID
    /\ Main.reason_map_get (VStr "invalid_signature") = Ok INVALID_SIGNATURE
    /\ Main.reason_map_get (VStr "malformed") = Ok MALFORMED_TOKEN.
Proof.
  intros Hrl Hjwt Herr. main_unfold. app_simpl.
  rewrite Hrl. app_simpl. rewrite Hjwt, Herr.
  destruct (Main.reason_map_get v) as [r|e]; app_simpl;
    try destruct (telemetry_emit_enabled settings);
    eexists; (split; [reflexivity|]); repeat split.
Qed.




(** X13: the score repository is consulted only for a request that is
    admitted past the replay check: on any other request its state is left
    as it was. *)
Theorem repository_untouched_unless_admitted (req : Main.Request) (a : Main.App R) :
  passes_replay_check settings jwt_decode req a = None ->
  Main.score_repo (snd (handler req a)) = Main.score_repo a.
Proof.
  unfold passes_replay_check. main_unfold. app_simpl.
  destruct (RateLimiter.is_allowed _ _) as [[[|]|e] rl']; app_simpl;
    try (intros _; try destruct (telemetry_emit_enabled settings); reflexivity).
  destruct (verify _ _) as [p|e]; app_simpl;
    try (intros _; try destruct (telemetry_emit_enabled settings); reflexivity).
  destruct (p !! "error"%string) as [err|]; app_simpl.
  { intros _. destruct (Main.reason_map_get err); app_simpl;
      try destruct (telemetry_emit_enabled settings); reflexivity. }
  destruct (ReplayCache.is_replayed _ _ _) as [[[|]|e] rc'] eqn:Hrep; app_simpl;
    try (intros _; try destruct (telemetry_emit_enabled settings); reflexivity).
  destruct (py_hash (dict_get p "jti")) as [k|e] eqn:Hh; [discriminate|].
  exfalso. revert Hrep. unfold ReplayCache.is_replayed.
  destruct (negb (truthy (dict_get p "jti"))); unfold_monad; [discriminate|].
  rewrite Hh.
  destruct (size _ mod 100 =? 0)%nat; [|discriminate].
  destruct (ReplayCache._cleanup_expired _ _) as [[[]|?] ?]; discriminate.
Qed.



(** What one request does to the counters *)
Lemma request_metrics (req : Main.Request) (a a' : Main.App R)
  (r : Result ValidateResponse) :
  handler req a = (r, a') ->
  let m := Main.metrics a in
  let m' := Main.metrics a' in
  Main.total_requests m' = Main.total_requests m + 1
  /\ Main.total_latency_ms m' = Main.total_latency_ms m
  /\ Main.active_users m' = Main.active_users m
  /\ Main.start_time m' = Main.start_time m
  /\ exists resp,
       r = Ok resp
       /\ match decision resp with
          | ALLOW =>
              Main.allow_count m' = Main.allow_count m + 1
              /\ Main.deny_count m' = Main.deny_count m
              /\ Main.monitor_count m' = Main.monitor_count m
          | MONITOR =>
              Main.monitor_count m' = Main.monitor_count m + 1
              /\ Main.allow_count m' = Main.allow_count m
              /\ Main.deny_count m' = Main.deny_count m
          | DENY =>
              (Main.deny_count m' = Main.deny_count m + 1
               /\ Main.allow_count m' = Main.allow_count m
               /\ Main.monitor_count m' = Main.monitor_count m)
              \/ (reason resp = Some INTERNAL_ERROR
                  /\ Main.deny_count m' >= Main.deny_count m + 1
                  /\ Main.allow_count m' >= Main.allow_count m
                  /\ Main.monitor_count m' >= Main.monitor_count m
                  /\ Main.allow_count m' + Main.deny_count m' + Main.monitor_count m'
                     = Main.allow_count m + Main.deny_count m
                       + Main.monitor_count m + 2)
          end.
Proof.
  main_unfold. intros Hrun. cbv zeta.
  repeat (break_inner; inv_pair; subst; try discriminate); cbn;
    (split; [reflexivity|]); (split; [reflexivity|]);
    (split; [reflexivity|]); (split; [reflexivity|]);
    eexists; (split; [reflexivity|]); cbn;
    first [ lia | left; lia | right; split; [reflexivity | lia] ].
Qed.

(** X15: every request adds one to [total_requests]; a response ALLOW or
    MONITOR adds one to the counter of its verdict and nothing else; a DENY
    adds one to [deny_count], except that a failure after the verdict was
    counted (reason INTERNAL_ERROR) leaves that count in place and adds a
    denial on top, two counts for one request.  The handler returns a
    response on every path. *)
Theorem each_request_is_counted (req : Main.Request) (a : Main.App R) :
  let '(r, a') := handler req a in
  let m := Main.metrics a in
  let m' := Main.metrics a' in
  Main.total_requests m' = Main.total_requests m + 1
  /\ exists resp,
       r = Ok resp
       /\ match decision resp with
          | ALLOW =>
              Main.allow_count m' = Main.allow_count m + 1
              /\ Main.deny_count m' = Main.deny_count m
              /\ Main.monitor_count m' = Main.monitor_count m
          | MONITOR =>
              Main.monitor_count m' = Main.monitor_count m + 1
              /\ Main.allow_count m' = Main.allow_count m
              /\ Main.deny_count m' = Main.deny_count m
          | DENY =>
              (Main.deny_count m' = Main.deny_count m + 1
               /\ Main.allow_count m' = Main.allow_count m
               /\ Main.monitor_count m' = Main.monitor_count m)
              \/ (reason resp = Some INTERNAL_ERROR
                  /\ Main.deny_count m' >= Main.deny_count m + 1
                  /\ Main.allow_count m' >= Main.allow_count m
                  /\ Main.monitor_count m' >= Main.monitor_count m
                  /\ Main.allow_count m' + Main.deny_count m' + Main.monitor_count m'
                     = Main.allow_count m + Main.deny_count m
                       + Main.monitor_count m + 2)
          end.
Proof.
  destruct (handler req a) as [r a'] eqn:Hrun.
  destruct (request_metrics req a a' r Hrun) as (Ht & _ & _ & _ & Hresp).
  split; assumption.
Qed.

End MainMore.

(** ** Endpoints: what /metrics and /health report after any requests *)

Section EndpointProps.
Context {R : Type} `{Repositories.ScoreRepository R}.
Variable settings : Settings.
Variable jwt_decode : string -> JWTValidator.DecodeOutcome.
Variable api_get : PyVal -> Result (option Z).
Variable sha256_hexdigest : string -> string.

Local Abbreviation handler :=
  (Main.validate_token settings jwt_decode api_get sha256_hexdigest).
Local Abbreviation served := (Main.serve settings jwt_decode api_get sha256_hexdigest).
Local Abbreviation admitted_list :=
  (admitted_keys settings jwt_decode api_get sha256_hexdigest).

Lemma serve_metrics (reqs : list Main.Request) :
  forall a : Main.App R,
    let m := Main.metrics a in
    let m' := Main.metrics (snd (served reqs a)) in
    Main.total_requests m' = Main.total_requests m + Z.of_nat (length reqs)
    /\ Main.total_latency_ms m' = Main.total_latency_ms m
    /\ Main.active_users m' = Main.active_users m
    /\ Main.rate_limit_hits m' = Main.rate_limit_hits m
    /\ Main.replay_detections m' = Main.replay_detections m
    /\ Main.allow_count m + Main.deny_count m + Main.monitor_count m
       + Z.of_nat (length reqs)
       <= Main.allow_count m' + Main.deny_count m' + Main.monitor_count m'
       <= Main.allow_count m + Main.deny_count m + Main.monitor_count m
          + 2 * Z.of_nat (length reqs).
Proof.
  induction reqs as [|req rest IH]; intros a; cbv zeta.
  - cbn. repeat split; lia.
  - rewrite (serve_cons settings jwt_decode api_get sha256_hexdigest).
    specialize (IH (snd (handler req a))). cbv zeta in IH.
    destruct (handler req a) as [r a1] eqn:Hrun.
    destruct (request_metrics settings jwt_decode api_get sha256_hexdigest
                req a a1 r Hrun) as (Ht & Hl & Hu & _ & resp & -> & Hresp).
    destruct (validate_token_hit_counters settings jwt_decode api_get
                sha256_hexdigest req a a1 _ Hrun) as [Hh Hd].
    cbn [snd] in IH. cbn [snd length]. rewrite Nat2Z.inj_succ.
    destruct IH as (IHt & IHl & IHu & IHh & IHd & IHs).
    assert (Hsum : Main.allow_count (Main.metrics a) + Main.deny_count (Main.metrics a)
                   + Main.monitor_count (Main.metrics a) + 1
                   <= Main.allow_count (Main.metrics a1)
                      + Main.deny_count (Main.metrics a1)
                      + Main.monitor_count (Main.metrics a1)
                   <= Main.allow_count (Main.metrics a) + Main.deny_count (Main.metrics a)
                      + Main.monitor_count (Main.metrics a) + 2).
    { destruct (decision resp);
        [| destruct Hresp as [Hr | (_ & Hr)] |];
        repeat match goal with Hc : _ /\ _ |- _ => destruct Hc end; lia. }
    repeat split; lia.
Qed.

(** X16: after any requests served since start-up, GET /metrics reports
    the number of requests as [total_requests], a sum of the three verdict
    counters between that number and twice that number, and 0 for the
    average latency, the rate-limit hits, the replay detections and the
    active users, whatever the requests were. *)
Theorem metrics_report_after_requests (start : Q) (repo : R)
  (reqs : list Main.Request) :
  let report :=
    Endpoints.get_metrics (snd (served reqs (Main.lifespan settings start repo))) in
  Endpoints.total_requests report = Z.of_nat (length reqs)
  /\ Z.of_nat (length reqs)
     <= Endpoints.allow_count report + Endpoints.deny_count report
        + Endpoints.monitor_count report
     <= 2 * Z.of_nat (length reqs)
  /\ (Endpoints.avg_latency_ms report == 0)%Q
  /\ Endpoints.rate_limit_hits report = 0
  /\ Endpoints.replay_detections report = 0
  /\ Endpoints.active_users report = 0.
Proof.
  cbv zeta.
  destruct (serve_metrics reqs (Main.lifespan settings start repo))
    as (Ht & Hl & Hu & Hh & Hd & Hs).
  unfold Endpoints.get_metrics.
  cbn [Endpoints.total_requests Endpoints.allow_count Endpoints.deny_count
       Endpoints.monitor_count Endpoints.avg_latency_ms Endpoints.rate_limit_hits
       Endpoints.replay_detections Endpoints.active_users].
  rewrite Hl, Hu, Hh, Hd.
  cbn [Main.lifespan Main.metrics Main.initial_metrics Main.total_requests
       Main.allow_count Main.deny_count Main.monitor_count Main.total_latency_ms
       Main.rate_limit_hits Main.replay_detections Main.active_users] in *.
  split; [lia|]. split; [lia|]. split; [unfold Qdiv; apply Qmult_0_l|].
  repeat split.
Qed.

Lemma admitted_is_new (req : Main.Request) (a : Main.App R) (k : PyKey) :
  ReplayCache.jti_timestamps (Main.replay_cache a) = ∅ ->
  passes_replay_check settings jwt_decode req a = Some k ->
  k ∉ ReplayCache.seen (Main.replay_cache a).
Proof.
  intros Hts. unfold passes_replay_check.
  destruct (RateLimiter.is_allowed _ _) as [[[|]|e] rl']; try discriminate.
  destruct (JWTValidator.validate_token _ _ _) as [p|e]; try discriminate.
  destruct (p !! "error"%string); try discriminate.
  rewrite (is_replayed_clean _ _ _ Hts).
  destruct (negb (truthy (dict_get p "jti"))); try discriminate.
  destruct (py_hash (dict_get p "jti")) as [k'|e]; try discriminate.
  destruct (bool_decide (k' ∈ ReplayCache.seen (Main.replay_cache a))) eqn:Hin;
    try discriminate.
  intros [= <-]. apply bool_decide_eq_false in Hin. exact Hin.
Qed.

Lemma admitted_keys_distinct (reqs : list Main.Request) :
  forall a : Main.App R,
    ReplayCache.jti_timestamps (Main.replay_cache a) = ∅ ->
    NoDup (admitted_list reqs a)
    /\ forall k, k ∈ admitted_list reqs a -> k ∉ ReplayCache.seen (Main.replay_cache a).
Proof.
  induction reqs as [|req rest IH]; intros a Hts.
  - cbn. split; [constructor | intros k Hk; apply elem_of_nil in Hk; contradiction].
  - cbn [admitted_keys].
    pose proof (validate_token_replay_cache settings jwt_decode api_get
                  sha256_hexdigest req a Hts) as Hstep.
    pose proof (admitted_is_new req a) as Hnew.
    destruct (passes_replay_check settings jwt_decode req a) as [k0|].
    + destruct (IH (snd (handler req a))) as [Hnd Hfresh];
        [rewrite Hstep; reflexivity|].
      rewrite Hstep in Hfresh. cbn [ReplayCache.seen] in Hfresh.
      split.
      * cbn. constructor; [|exact Hnd].
        intros Hin. apply (Hfresh k0 Hin). set_solver.
      * intros k Hk. cbn in Hk. apply elem_of_cons in Hk as [-> | Hk].
        -- apply (Hnew k0 Hts eq_refl).
        -- specialize (Hfresh k Hk). set_solver.
    + destruct (IH (snd (handler req a))) as [Hnd Hfresh];
        [rewrite Hstep; exact Hts|].
      rewrite Hstep in Hfresh. cbn. split; assumption.
Qed.

(** X17: after any requests served since start-up, the [replay_cache_size]
    that GET /health reports is the number of requests that were admitted
    past the replay check; their [jti]s are pairwise distinct.  The size is
    never reduced and no setting bounds it. *)
Theorem health_reports_admitted_count (app_version : string) (time_now utcnow : Q)
  (start : Q) (repo : R) (reqs : list Main.Request) :
  let a0 := Main.lifespan settings start repo in
  Endpoints.replay_cache_size
    (Endpoints.health_check app_version time_now utcnow (snd (served reqs a0)))
  = length (admitted_list reqs a0)
  /\ NoDup (admitted_list reqs a0).
Proof.
  cbv zeta.
  destruct (admitted_keys_distinct reqs (Main.lifespan settings start repo) eq_refl)
    as [Hnd _].
  split; [|exact Hnd].
  destruct (serve_replay_cache settings jwt_decode api_get sha256_hexdigest reqs
              (Main.lifespan settings start repo) eq_refl) as [_ Hseen].
  cbn [Endpoints.health_check Endpoints.replay_cache_size].
  unfold ReplayCache.size.
  rewrite <- (size_list_to_set (C := gset PyKey) _ Hnd). f_equal.
  apply set_eq. intros k. rewrite Hseen, elem_of_list_to_set.
  cbn [Main.lifespan Main.replay_cache ReplayCache.init ReplayCache.seen].
  set_solver.
Qed.

End EndpointProps.

(** X11 on a verified credential that carries the claim [error: expired] *)
Lemma error_key_is_denied_witness :
  fst (MoreSamples.handle (Samples.request_at 1000 "error-claim") Samples.fresh_app)
  = Ok (Main.deny (Samples.request_at 1000 "error-claim") EXPIRED_TOKEN).
Proof.
  edestruct (error_key_is_denied default_settings MoreSamples.more_jwt_decode
               Samples.no_api Samples.sample_digest
               (Samples.request_at 1000 "error-claim") Samples.fresh_app
               (snd (RateLimiter.is_allowed 1000 (Main.rate_limiter Samples.fresh_app)))
               MoreSamples.payload_error_claim (VStr "expired"))
    as (a' & Hrun & _);
    [vm_compute; reflexivity | vm_compute; reflexivity | reflexivity|].
  unfold MoreSamples.handle. rewrite Hrun. reflexivity.
Defined.


(** X13 on a credential signed with the wrong key, on a repository that
    holds one record *)
Lemma repository_untouched_unless_admitted_witness :
  Main.score_repo
    (snd (Main.validate_token default_settings Samples.sample_jwt_decode
            Samples.no_api Samples.sample_digest
            (Samples.request_at 1000 "wrong-key")
            (Main.lifespan default_settings 0 {| Repositories.fixed_record := Some 80 |})))
  = {| Repositories.fixed_record := Some 80 |}.
Proof.
  apply (repository_untouched_unless_admitted default_settings
           Samples.sample_jwt_decode Samples.no_api Samples.sample_digest
           (Samples.request_at 1000 "wrong-key")
           (Main.lifespan default_settings 0 {| Repositories.fixed_record := Some 80 |})).
  vm_compute. reflexivity.
Defined.


(** A credential whose [sub] is a number: the mock repository fails on it,
    the provider answers 0, the verdict DENY is counted, and then hashing
    the [sub] for telemetry raises: the request is counted as denied twice. *)
Example number_sub_is_counted_twice :
  let '(r, a) := MoreSamples.handle (Samples.request_at 1000 "number-sub")
                   Samples.fresh_app in
  r = Ok (Main.deny (Samples.request_at 1000 "number-sub") INTERNAL_ERROR)
  /\ Main.total_requests (Main.metrics a) = 1
  /\ Main.deny_count (Main.metrics a) = 2.
Proof. vm_compute. repeat split. Qed.

(** ** Configuration *)

Section ConfigProps.
Import Config.

Lemma allowed_algorithm_not_hmac (alg : string) :
  alg ∈ allowed_algorithms -> String.prefix "HS" alg = false.
Proof.
  unfold allowed_algorithms. intros Hin.
  repeat (apply elem_of_cons in Hin as [-> | Hin]; [reflexivity|]).
  apply elem_of_nil in Hin. contradiction.
Qed.

(** X18: [get_settings] returns settings exactly when the algorithm is one
    of the six asymmetric ones, the environment is one of the three known
    ones and, in production, [SECRET_KEY] and [DATABASE_URL] are set; the
    settings are returned as given.  The algorithm of returned settings
    never starts with [HS], so the check of [JWT_SECRET_KEY] in
    [get_settings] can never fail. *)
Theorem get_settings_accepts (raw : Config.t) :
  ((exists s, get_settings raw = Ok s)
   <-> jwt_algorithm raw ∈ allowed_algorithms
       /\ environment raw ∈ allowed_envs
       /\ (environment raw = "production"%string ->
           secret_key raw <> ""%string /\ database_url raw <> ""%string))
  /\ (forall s, get_settings raw = Ok s ->
        s = raw /\ String.prefix "HS" (jwt_algorithm s) = false).
Proof.
  unfold get_settings, Settings_init, validate_jwt_algorithm, validate_environment,
    is_production.
  destruct raw as [env sk db jsk alg]. cbn [environment secret_key database_url
                                             jwt_secret_key jwt_algorithm].
  destruct (bool_decide (alg ∈ allowed_algorithms)) eqn:Halg.
  2: { apply bool_decide_eq_false in Halg. split; [|discriminate].
       split; [intros [s Hs]; discriminate | tauto]. }
  apply bool_decide_eq_true in Halg.
  pose proof (allowed_algorithm_not_hmac alg Halg) as Hhs.
  destruct (bool_decide (env ∈ allowed_envs)) eqn:Henv.
  2: { apply bool_decide_eq_false in Henv. split; [|discriminate].
       split; [intros [s Hs]; discriminate | tauto]. }
  apply bool_decide_eq_true in Henv.
  cbn [environment secret_key database_url jwt_secret_key jwt_algorithm].
  rewrite Hhs, andb_false_r.
  destruct (String.eqb env "production") eqn:Hprod.
  - apply String.eqb_eq in Hprod.
    destruct (String.eqb sk "") eqn:Hsk.
    { apply String.eqb_eq in Hsk. split; [|discriminate].
      split; [intros [s Hs]; discriminate | intros (_ & _ & Hp)].
      destruct (Hp Hprod) as [Hne _]. contradiction. }
    apply String.eqb_neq in Hsk.
    destruct (String.eqb db "") eqn:Hdb.
    { apply String.eqb_eq in Hdb. split; [|discriminate].
      split; [intros [s Hs]; discriminate | intros (_ & _ & Hp)].
      destruct (Hp Hprod) as [_ Hne]. contradiction. }
    apply String.eqb_neq in Hdb.
    split; [split; [tauto | eauto]|].
    intros s [= <-]. split; [reflexivity | exact Hhs].
  - apply String.eqb_neq in Hprod.
    split; [split; [intros _; repeat split; try assumption; contradiction | eauto]|].
    intros s [= <-]. split; [reflexivity | exact Hhs].
Qed.

End ConfigProps.

(** The defaults of [config.py] are accepted; an HMAC algorithm, [none]
    and a production environment without a secret key are not. *)
Example get_settings_examples :
  let defaults := {| Config.environment := "development"; Config.secret_key := "";
                     Config.database_url := ""; Config.jwt_secret_key := "";
                     Config.jwt_algorithm := "RS256" |} in
  Config.get_settings defaults = Ok defaults
  /\ Config.get_settings
       {| Config.environment := "development"; Config.secret_key := "";
          Config.database_url := ""; Config.jwt_secret_key := "k";
          Config.jwt_algorithm := "HS256" |} = Raise OtherException
  /\ Config.get_settings
       {| Config.environment := "development"; Config.secret_key := "";
          Config.database_url := ""; Config.jwt_secret_key := "";
          Config.jwt_algorithm := "none" |} = Raise OtherException
  /\ Config.get_settings
       {| Config.environment := "production"; Config.secret_key := "";
          Config.database_url := "postgres://db"; Config.jwt_secret_key := "";
          Config.jwt_algorithm := "ES256" |} = Raise OtherException.
Proof. vm_compute. repeat split. Qed.

(** ** Generated test credentials against the verifier *)

Section GeneratorProps.
Import JWTValidator.

Variable self : JWTValidator.t.
Variable token : string.
Variable issued : Z.
Variable uuid4 user_id : string.
Hypothesis token_not_empty : token <> ""%string.

Lemma generated_claims (jti : option string) (exp_hours nbf_hours : Z) :
  let payload :=
    JWTTokenGenerator.generate_token_payload issued uuid4 user_id jti
      exp_hours nbf_hours None in
  dict_get payload "exp" = VInt (issued + exp_hours * 3600)
  /\ dict_get payload "nbf" = VInt (issued + nbf_hours * 3600)
  /\ payload !! "sub"%string = Some (VStr user_id)
  /\ is_Some (payload !! "jti"%string)
  /\ payload !! "error"%string = None.
Proof.
  cbv zeta. unfold JWTTokenGenerator.generate_token_payload, dict_get.
  repeat split; try reflexivity. eexists. reflexivity.
Qed.

(** X19: a credential made by [generate_valid_token] at time [issued] is
    returned by the verifier, payload unchanged, at every clock reading from
    [issued - clock_drift] to [issued + 3600 + clock_drift]. *)
Theorem generated_valid_token_is_accepted (time_now : Q) :
  jwt_decode self token
  = Decoded (JWTTokenGenerator.generate_valid_token_payload issued uuid4 user_id) ->
  issued - clock_drift self <= py_int time_now <= issued + 3600 + clock_drift self ->
  validate_token self time_now token
  = Ok (JWTTokenGenerator.generate_valid_token_payload issued uuid4 user_id).
Proof.
  intros Hdec [Hlo Hhi].
  rewrite (validate_token_decoded self time_now token _ token_not_empty Hdec).
  unfold JWTTokenGenerator.generate_valid_token_payload.
  destruct (generated_claims (Some ("valid-" ++ uuid4)%string) 1 0)
    as (Hexp & Hnbf & Hsub & [j Hjti] & _).
  cbv zeta. rewrite Hexp, Hnbf, Hsub, Hjti. cbn [rbind py_add_int py_sub_int].
  rewrite !bool_decide_eq_false_2 by discriminate. cbn [rbind orb].
  replace (issued + 1 * 3600 + clock_drift self <? py_int time_now) with false
    by (symmetry; apply Z.ltb_ge; lia).
  replace (py_int time_now <? issued + 0 * 3600 - clock_drift self) with false
    by (symmetry; apply Z.ltb_ge; lia).
  reflexivity.
Qed.

(** X20: a credential made by [generate_expired_token] is reported as
    expired at every clock reading after [issued - 3600 + clock_drift], so
    at once when the drift is below one hour; a credential made by
    [generate_future_token] is reported as not yet valid at every clock
    reading before [issued + 3600 - clock_drift], for a drift that is not
    negative. *)
Theorem generated_expired_and_future_tokens_are_rejected (time_now : Q) :
  (jwt_decode self token
   = Decoded (JWTTokenGenerator.generate_expired_token_payload issued uuid4 user_id) ->
   issued - 3600 + clock_drift self < py_int time_now ->
   validate_token self time_now token = Ok (error_dict "expired"))
  /\ (jwt_decode self token
      = Decoded (JWTTokenGenerator.generate_future_token_payload issued uuid4 user_id) ->
      0 <= clock_drift self ->
      py_int time_now < issued + 3600 - clock_drift self ->
      validate_token self time_now token = Ok (error_dict "not_yet_valid")).
Proof.
  split.
  - intros Hdec Hlate.
    rewrite (validate_token_decoded self time_now token _ token_not_empty Hdec).
    unfold JWTTokenGenerator.generate_expired_token_payload.
    destruct (generated_claims (Some ("expired-" ++ uuid4)%string) (-1) 0)
      as (Hexp & _).
    cbv zeta. rewrite Hexp. cbn [rbind py_add_int].
    rewrite bool_decide_eq_false_2 by discriminate.
    replace (issued + -1 * 3600 + clock_drift self <? py_int time_now) with true
      by (symmetry; apply Z.ltb_lt; lia).
    reflexivity.
  - intros Hdec Hdrift Hearly.
    rewrite (validate_token_decoded self time_now token _ token_not_empty Hdec).
    unfold JWTTokenGenerator.generate_future_token_payload.
    destruct (generated_claims (Some ("future-" ++ uuid4)%string) 2 1)
      as (Hexp & Hnbf & _).
    cbv zeta. rewrite Hexp, Hnbf. cbn [rbind py_add_int py_sub_int].
    rewrite !bool_decide_eq_false_2 by discriminate. cbn [rbind].
    replace (issued + 2 * 3600 + clock_drift self <? py_int time_now) with false
      by (symmetry; apply Z.ltb_ge; lia).
    replace (py_int time_now <? issued + 1 * 3600 - clock_drift self) with true
      by (symmetry; apply Z.ltb_lt; lia).
    reflexivity.
Qed.

End GeneratorProps.

(** X19 on a credential generated at 1000 for [user123], verified at 4000
    with a drift of 30 *)
Lemma generated_valid_token_is_accepted_witness :
  JWTValidator.validate_token
    {| JWTValidator.jwt_decode := fun _ =>
         JWTValidator.Decoded
           (JWTTokenGenerator.generate_valid_token_payload 1000 "u-1" "user123");
       JWTValidator.clock_drift := 30 |} 4000 "signed"
  = Ok (JWTTokenGenerator.generate_valid_token_payload 1000 "u-1" "user123").
Proof.
  apply (generated_valid_token_is_accepted
           {| JWTValidator.jwt_decode := fun _ =>
                JWTValidator.Decoded
                  (JWTTokenGenerator.generate_valid_token_payload 1000 "u-1" "user123");
              JWTValidator.clock_drift := 30 |} "signed" 1000 "u-1" "user123"
           ltac:(discriminate) 4000 eq_refl).
  split; vm_compute; discriminate.
Defined.

(** X20 on an expired credential generated at 1000 and verified at 1000 *)
Lemma generated_expired_and_future_tokens_are_rejected_witness :
  JWTValidator.validate_token
    {| JWTValidator.jwt_decode := fun _ =>
         JWTValidator.Decoded
           (JWTTokenGenerator.generate_expired_token_payload 1000 "u-2" "user456");
       JWTValidator.clock_drift := 30 |} 1000 "signed"
  = Ok (JWTValidator.error_dict "expired").
Proof.
  apply (proj1 (generated_expired_and_future_tokens_are_rejected
                  {| JWTValidator.jwt_decode := fun _ =>
                       JWTValidator.Decoded
                         (JWTTokenGenerator.generate_expired_token_payload
                            1000 "u-2" "user456");
                     JWTValidator.clock_drift := 30 |} "signed" 1000 "u-2" "user456"
                  ltac:(discriminate) 1000) eq_refl).
  vm_compute. reflexivity.
Defined.

(** ** Decision engine and provider on the mock repository *)

Section EngineMore.
Context {R : Type} `{Repositories.ScoreRepository R}.
Variable api_get : PyVal -> Result (option Z).

(** X21: [should_enforce_deny] holds of the verdict of [make_decision]
    exactly when the score of the provider is below 50; [make_decision]
    never raises. *)
Theorem enforce_deny_iff_low_score (self : DecisionEngine.t) (user_id : PyVal) (r : R) :
  exists (d : Decision) (s : Z) (r' : R),
    DecisionEngine.make_decision api_get self user_id r = (Ok (d, s), r')
    /\ TrustedScoreProvider.get_score api_get (DecisionEngine.score_provider self)
         user_id r = (Ok s, r')
    /\ (DecisionEngine.should_enforce_deny self d = true <-> s < 50).
Proof.
  destruct (get_score_total api_get (DecisionEngine.score_provider self) user_id r)
    as (s & r' & Hs).
  exists (fst (DecisionEngine.threshold_decision s)), s, r'.
  split; [|split; [exact Hs|]].
  - unfold DecisionEngine.make_decision, bind, ret. rewrite Hs.
    unfold DecisionEngine.threshold_decision.
    destruct (_ <=? s); [reflexivity|]. destruct (_ <=? s); reflexivity.
  - unfold DecisionEngine.should_enforce_deny, DecisionEngine.threshold_decision,
      DecisionEngine.ALLOW_THRESHOLD, DecisionEngine.MONITOR_THRESHOLD.
    destruct (70 <=? s) eqn:Ha; [apply Z.leb_le in Ha | apply Z.leb_gt in Ha].
    + cbn. rewrite bool_decide_eq_false_2 by discriminate.
      split; [discriminate | lia].
    + destruct (50 <=? s) eqn:Hm; [apply Z.leb_le in Hm | apply Z.leb_gt in Hm]; cbn.
      * rewrite bool_decide_eq_false_2 by discriminate. split; [discriminate | lia].
      * rewrite bool_decide_eq_true_2 by reflexivity. split; [lia | reflexivity].
Qed.

End EngineMore.

(** X22: on the mock repository of [main.py], with the database or the
    redis backend, the provider answers 95 for an identifier that starts
    with [high], else 50 for one that starts with [med], else 5, and 0 for
    an identifier that is not a string: always a score in [0, 100], and the
    two backends agree. *)
Theorem mock_scores (api_get : PyVal -> Result (option Z)) (st : Settings)
  (user_id : PyVal) :
  score_provider_type st = "database"%string \/ score_provider_type st = "redis"%string ->
  let s := match user_id with
           | VStr u =>
               if Repositories.startswith u "high" then 95
               else if Repositories.startswith u "med" then 50 else 5
           | _ => 0
           end in
  TrustedScoreProvider.get_score api_get (TrustedScoreProvider.init (Some st))
    user_id tt = (Ok s, tt)
  /\ 0 <= s <= 100.
Proof.
  intros Hty. cbv zeta. split.
  - unfold TrustedScoreProvider.get_score, TrustedScoreProvider.init.
    cbn [TrustedScoreProvider.provider_type].
    destruct Hty as [-> | ->]; cbn [String.eqb Ascii.eqb Bool.eqb];
      unfold TrustedScoreProvider._get_from_database,
        TrustedScoreProvider._get_from_redis; unfold_monad;
      cbn [Repositories.get_score Repositories.get_cached_score
           Repositories.cache_score Repositories.MockScoreRepository];
      unfold Repositories.mock_get_score, ret, raise;
      destruct user_id as [| | |u|]; try reflexivity;
      destruct (Repositories.startswith u "high"); try reflexivity;
      destruct (Repositories.startswith u "med"); reflexivity.
  - destruct user_id as [| | |u|]; try lia.
    destruct (Repositories.startswith u "high"); [lia|].
    destruct (Repositories.startswith u "med"); lia.
Qed.

(** X22 on the default settings and [high_user] *)
Lemma mock_scores_witness :
  TrustedScoreProvider.get_score Samples.no_api
    (TrustedScoreProvider.init (Some default_settings)) (VStr "high_user") tt
  = (Ok 95, tt)
  /\ 0 <= 95 <= 100.
Proof.
  apply (mock_scores Samples.no_api default_settings (VStr "high_user")).
  left. reflexivity.
Defined.
